(** * The turn pipeline of the memory agent (src/agent/day2_memory_agent.py)

    A shallow embedding of the LangGraph agent of the repository: the
    [AgentState] dictionary, the three nodes [think_node], [tool_node] and
    [answer_node], the routing function [should_call_tool], the graph built
    by [build_agent_graph] and the driver loop of the [__main__] block,
    together with the reply bookkeeping of [multi_round_chat]
    (src/agent/day1_chat_agent.py).

    External collaborators (the chat model, [json.loads], [eval],
    [requests], LangChain's tool wrapper) are fields of the record
    [Externals]; every definition below is parametric in them. *)

From Stdlib Require Import String Ascii.
From stdpp Require Import base option list gmap.

Local Open Scope N_scope.
Local Open Scope list_scope.

(** ** Python strings

    A Python [str] is a sequence of Unicode code points.  Literals of the
    source are written as UTF-8 text and decoded by [u]. *)

Definition str : Type := list N.

Fixpoint utf8_decode (acc : N) (need : nat) (s : string) : str :=
  match s with
  | EmptyString => []
  | String a r =>
      let b := N_of_ascii a in
      match need with
      | O =>
          if b <? 128 then b :: utf8_decode 0 0 r
          else if b <? 224 then utf8_decode (b - 192) 1 r
          else if b <? 240 then utf8_decode (b - 224) 2 r
          else utf8_decode (b - 240) 3 r
      | S O => (acc * 64 + (b - 128)) :: utf8_decode 0 0 r
      | S k => utf8_decode (acc * 64 + (b - 128)) k r
      end
  end.

Definition u (s : string) : str := utf8_decode 0 0 s.

(** [str.isspace] for one character: the code points CPython lists as
    whitespace. *)
Definition isspace (c : N) : bool :=
  ((9 <=? c) && (c <=? 13)) || ((28 <=? c) && (c <=? 32))
  || (c =? 133) || (c =? 160) || (c =? 5760)
  || ((8192 <=? c) && (c <=? 8202))
  || (c =? 8232) || (c =? 8233) || (c =? 8239) || (c =? 8287)
  || (c =? 12288).

Fixpoint lstrip (s : str) : str :=
  match s with
  | [] => []
  | c :: r => if isspace c then lstrip r else s
  end.

Definition rstrip (s : str) : str := rev (lstrip (rev s)).

(** [s.strip()] *)
Definition strip (s : str) : str := rstrip (lstrip s).

(** Truth value of a string: [if s:] holds for the non-empty ones. *)
Definition truthy (s : str) : bool :=
  match s with [] => false | _ :: _ => true end.

(** ** Exceptions and results

    [PyExn] stands for the instances of [Exception], the ones a clause
    [except Exception] catches. *)

Inductive PyExn : Type :=
  | Exn (cls : string) (message : str).

(** [str(e)] *)
Definition exn_str (e : PyExn) : str :=
  match e with Exn _ m => m end.

Inductive result (A : Type) : Type :=
  | Ok (a : A)
  | Raise (e : PyExn).
Arguments Ok {A} a.
Arguments Raise {A} e.

(** ** Values produced by [json.loads] *)

#[warnings="-register-all"]
Inductive JSON : Type :=
  | JNone
  | JBool (b : bool)
  | JNumber (repr : str)
  | JStr (s : str)
  | JList (l : list JSON)
  | JDict (d : list (str * JSON)).

(** [d.get(key)] on the items of a dict. *)
Fixpoint dict_lookup (key : str) (d : list (str * JSON)) : option JSON :=
  match d with
  | [] => None
  | (k, v) :: r => if decide (k = key) then Some v else dict_lookup key r
  end.

Definition attribute_error (attr : string) : PyExn :=
  Exn "AttributeError" (u "object has no attribute '" ++ u attr ++ u "'").

(** [obj.get(key, default)]: only dicts have the method. *)
Definition py_get (obj : JSON) (key : str) (dflt : JSON) : result JSON :=
  match obj with
  | JDict d => Ok (default dflt (dict_lookup key d))
  | _ => Raise (attribute_error "get")
  end.

(** [obj[key]] with a string key. *)
Definition py_getitem (obj : JSON) (key : str) : result JSON :=
  match obj with
  | JDict d =>
      match dict_lookup key d with
      | Some v => Ok v
      | None => Raise (Exn "KeyError" key)
      end
  | _ => Raise (Exn "TypeError" (u "indices must be integers or the object is not subscriptable"))
  end.

(** [obj[0]] *)
Definition py_getitem_0 (obj : JSON) : result JSON :=
  match obj with
  | JList (x :: _) => Ok x
  | JList [] => Raise (Exn "IndexError" (u "list index out of range"))
  | JStr (c :: _) => Ok (JStr [c])
  | JStr [] => Raise (Exn "IndexError" (u "string index out of range"))
  | JDict _ => Raise (Exn "KeyError" (u "0"))
  | _ => Raise (Exn "TypeError" (u "object is not subscriptable"))
  end.

(** [v == s] for a string [s]: no other kind of value equals a [str]. *)
Definition eq_str (v : JSON) (s : str) : bool :=
  match v with
  | JStr x => bool_decide (x = s)
  | _ => false
  end.

(** ** Chat messages and the agent state *)

Inductive Message : Type :=
  | HumanMessage (content : str)
  | AIMessage (content : str)
  | SystemMessage (content : str).

Definition content (m : Message) : str :=
  match m with
  | HumanMessage c | AIMessage c | SystemMessage c => c
  end.

Definition is_AIMessage (m : Message) : bool :=
  match m with AIMessage _ => true | _ => false end.

Record AgentState : Type := mkState {
  user_input : str;
  chat_history : list Message;
  tool_name : str;
  tool_input : JSON;
  tool_result : str;
  final_answer : str
}.

Definition get_initial_state : AgentState :=
  {| user_input := []; chat_history := []; tool_name := [];
     tool_input := JDict []; tool_result := []; final_answer := [] |}.

(** Dictionary updates [{**state, key: value}] and [state[key] = value]. *)
Definition set_user_input (v : str) (s : AgentState) : AgentState :=
  mkState v (chat_history s) (tool_name s) (tool_input s) (tool_result s) (final_answer s).
Definition set_chat_history (v : list Message) (s : AgentState) : AgentState :=
  mkState (user_input s) v (tool_name s) (tool_input s) (tool_result s) (final_answer s).
Definition set_tool_name (v : str) (s : AgentState) : AgentState :=
  mkState (user_input s) (chat_history s) v (tool_input s) (tool_result s) (final_answer s).
Definition set_tool_input (v : JSON) (s : AgentState) : AgentState :=
  mkState (user_input s) (chat_history s) (tool_name s) v (tool_result s) (final_answer s).
Definition set_tool_result (v : str) (s : AgentState) : AgentState :=
  mkState (user_input s) (chat_history s) (tool_name s) (tool_input s) v (final_answer s).
Definition set_final_answer (v : str) (s : AgentState) : AgentState :=
  mkState (user_input s) (chat_history s) (tool_name s) (tool_input s) (tool_result s) v.

(** ** The outside world

    [Prompt] is the message list handed to the chat model; a [Trace] is the
    list of prompts sent so far, oldest first.  The model's reply may depend
    on everything it was sent before. *)

Definition Prompt : Type := list Message.
Definition Trace : Type := list Prompt.

Record Externals : Type := {
  (** [(prompt | llm).invoke(...).content], or the exception of the call *)
  llm : Trace -> Prompt -> result str;
  (** [json.loads] *)
  json_loads : str -> result JSON;
  (** [eval(expression, {"__builtins__": None}, {})] followed by the
      formatting of its value inside the f-string *)
  py_eval : str -> result str;
  (** [requests.get(url, timeout=5)], [raise_for_status()] and [.json()] *)
  requests_get_json : str -> result JSON;
  (** [f"{v}"] for a value that is not a [str] *)
  py_repr : JSON -> str;
  (** LangChain's tool wrapper: the declared string argument taken out of
      the input of [.invoke], or its validation error *)
  tool_parse_input : str -> JSON -> result str
}.

(** ** Computations that call the model and may raise *)

Definition M (A : Type) : Type := Trace -> result A * Trace.

Definition ret {A} (a : A) : M A := fun t => (Ok a, t).
Definition lift {A} (r : result A) : M A := fun t => (r, t).
Definition bind {A B} (m : M A) (k : A -> M B) : M B :=
  fun t =>
    match m t with
    | (Ok a, t') => k a t'
    | (Raise e, t') => (Raise e, t')
    end.

(** [try: m  except Exception as e: h e] *)
Definition try_except {A} (m : M A) (h : PyExn -> M A) : M A :=
  fun t =>
    match m t with
    | (Ok a, t') => (Ok a, t')
    | (Raise e, t') => h e t'
    end.

Notation "'let*' x ':=' m 'in' k" := (bind m (fun x => k))
  (at level 10, x name, m at level 100, k at level 200).

(** The same two operations for code that does not call the model. *)
Definition rbind {A B} (r : result A) (k : A -> result B) : result B :=
  match r with Ok a => k a | Raise e => Raise e end.

Definition rcatch {A} (r : result A) (h : PyExn -> result A) : result A :=
  match r with Ok a => Ok a | Raise e => h e end.

Notation "'let+' x ':=' r 'in' k" := (rbind r (fun x => k))
  (at level 10, x name, r at level 100, k at level 200).

(** Source literals that contain the double quote are written here with a
    backquote in its place. *)
Definition uq (s : string) : str :=
  (fun c => if c =? 96 then 34 else c) <$> u s.

Section Agent.

Variable ext : Externals.

(** ** The tools *)

(** [f"{v}"] *)
Definition fmt (v : JSON) : str :=
  match v with
  | JStr s => s
  | _ => py_repr ext v
  end.

(** [weather_query(city)] *)
Definition weather_query (city : str) : result str :=
  rcatch
    (let url := u "http://wthrcdn.etouch.cn/weather_mini?city=" ++ city in
     let+ data := requests_get_json ext url in
     let+ desc := py_getitem data (u "desc") in
     if negb (eq_str desc (u "success")) then
       let+ desc' := py_getitem data (u "desc") in
       Ok (u "查询失败：" ++ fmt desc')
     else
       let+ d := py_getitem data (u "data") in
       let+ forecast := py_getitem d (u "forecast") in
       let+ weather_info := py_getitem_0 forecast in
       let+ type := py_getitem weather_info (u "type") in
       let+ low := py_getitem weather_info (u "low") in
       let+ high := py_getitem weather_info (u "high") in
       let+ fengxiang := py_getitem weather_info (u "fengxiang") in
       let+ fengli := py_getitem weather_info (u "fengli") in
       Ok (city ++ u "今日天气：" ++ fmt type ++ u "，"
           ++ u "气温" ++ fmt low ++ u "~" ++ fmt high ++ u "，"
           ++ u "风向" ++ fmt fengxiang ++ u "，风力" ++ fmt fengli))
    (fun e => Ok (u "天气查询异常：" ++ exn_str e)).

(** [calculator(expression)] *)
Definition calculator (expression : str) : result str :=
  rcatch
    (let+ result := py_eval ext expression in
     Ok (u "计算结果：" ++ expression ++ u " = " ++ result))
    (fun e => Ok (u "计算失败：" ++ exn_str e)).

(** A registered tool: the decorated function and the name of its
    argument.  [.invoke(tool_input)] validates the input and calls it. *)
Record Tool : Type := mkTool {
  tool_arg : str;
  tool_func : str -> result str
}.

Definition invoke (t : Tool) (input : JSON) : result str :=
  let+ arg := tool_parse_input ext (tool_arg t) input in
  tool_func t arg.

(** The module-level dictionary [tools]. *)
Definition tools : gmap str Tool :=
  <[u "weather_query" := mkTool (u "city") weather_query]>
    (<[u "calculator" := mkTool (u "expression") calculator]> ∅).

(** ** The nodes of the graph *)

Definition think_system_prompt : str := uq "
你是决策助手，仅判断是否调用工具，规则：
1. 仅当用户输入是「查天气」（含城市名）或「数学计算」（含表达式）时，返回对应工具信息；
2. 其他情况（如问候、闲聊、空输入），返回{`tool_name`:``,`tool_input`:{}}；
3. 必须返回标准JSON，无任何多余文字、注释、换行。
示例1（查天气）：{`tool_name`:`weather_query`,`tool_input`:{`city`:`北京`}}
示例2（计算）：{`tool_name`:`calculator`,`tool_input`:{`expression`:`1+1`}}
示例3（闲聊）：{`tool_name`:``,`tool_input`:{}}
".

Definition answer_system_prompt : str := u "
你是一个有记忆的助手，要考虑对话历史（chat_history）回答用户问题，回答规则：
1. 简洁友好，不重复、不啰嗦；
2. 有工具结果则基于工具结果回答，无则直接回应用户（如问候）；
3. 仅回复用户当前问题，不主动追问、不额外输出无关内容；
4. 如果是工具调用失败，要回答失败原因
5.如果用户问“前面问了什么”“上一个问题是什么”，必须从chat_history中提取并回答
".

(** [(prompt | llm).invoke(...).content]: the prompt is recorded in the
    trace whether the call succeeds or not. *)
Definition llm_invoke (prompt : Prompt) : M str :=
  fun t => (llm ext t prompt, t ++ [prompt]).

Definition default_decision : JSON :=
  JDict [(u "tool_name", JStr []); (u "tool_input", JDict [])].

(** [decision_dict.get(key_tool_name, empty).strip()]: [strip] is a method
    of [str] only. *)
Definition get_tool_name (decision_dict : JSON) : result str :=
  let+ v := py_get decision_dict (u "tool_name") (JStr []) in
  match v with
  | JStr s => Ok (strip s)
  | _ => Raise (attribute_error "strip")
  end.

Definition think_prompt (user_input' : str) : Prompt :=
  [SystemMessage think_system_prompt; HumanMessage user_input'].

Definition think_node (state : AgentState) : M AgentState :=
  let user_input' := strip (user_input state) in
  if negb (truthy user_input') then
    ret (set_tool_input (JDict []) (set_tool_name [] state))
  else
    let prompt := think_prompt user_input' in
    let* decision_dict :=
      try_except
        (let* decision := llm_invoke prompt in
         lift (json_loads ext (strip decision)))
        (fun _ => ret default_decision) in
    let* tool_name' := lift (get_tool_name decision_dict) in
    let* tool_input' :=
      lift (py_get decision_dict (u "tool_input") (JDict [])) in
    ret (set_tool_input tool_input' (set_tool_name tool_name' state)).

Definition tool_node (state : AgentState) : M AgentState :=
  let tool_name' := tool_name state in
  let tool_input' := tool_input state in
  let* tool_result' :=
    match tools !! tool_name' with
    | None => ret (u "未知工具：" ++ tool_name')
    | Some t =>
        try_except
          (lift (invoke t tool_input'))
          (fun e => ret (u "工具执行出错：" ++ exn_str e))
    end in
  ret (set_tool_result tool_result' state).

Definition clarification : str :=
  u "请问你有什么具体问题需要帮助？比如查询某个城市的天气，或执行数学计算。".

Definition answer_prompt (chat_history' : list Message)
    (user_input' tool_result' : str) : Prompt :=
  [SystemMessage answer_system_prompt]
  ++ chat_history'
  ++ [HumanMessage user_input';
      SystemMessage
        (u "工具结果：" ++ (if truthy tool_result' then tool_result' else u "无"))].

Definition answer_node (state : AgentState) : M AgentState :=
  let user_input' := strip (user_input state) in
  let tool_result' := tool_result state in
  let chat_history' := chat_history state in
  let* final_answer' :=
    if negb (truthy user_input') then ret clarification
    else llm_invoke (answer_prompt chat_history' user_input' tool_result') in
  let new_chat_history :=
    if truthy user_input' then
      chat_history' ++ [HumanMessage user_input'; AIMessage final_answer']
    else chat_history' in
  ret (set_chat_history new_chat_history
         (set_final_answer final_answer' state)).

(** ** The graph of [build_agent_graph] *)

Inductive Node : Type := n_think | n_tool | n_answer | END.

(** The branch function of the conditional edge out of [think]. *)
Definition should_call_tool (state : AgentState) : Node :=
  if truthy (strip (tool_name state)) then n_tool else n_answer.

(** [add_node] *)
Definition node_action (n : Node) : AgentState -> M AgentState :=
  match n with
  | n_think => think_node
  | n_tool => tool_node
  | n_answer => answer_node
  | END => ret
  end.

(** [add_conditional_edges] and [add_edge] *)
Definition next_node (n : Node) (state : AgentState) : Node :=
  match n with
  | n_think => should_call_tool state
  | n_tool => n_answer
  | n_answer => END
  | END => END
  end.

Definition Config : Type := Node * AgentState * Trace.

(** One node runs to completion and the graph moves along its edge. *)
Inductive step : Config -> Config -> Prop :=
  | step_node n s t s' t' :
      n ≠ END ->
      node_action n s t = (Ok s', t') ->
      step (n, s, t) (next_node n s', s', t').

(** The number of steps LangGraph allows one invocation. *)
Definition recursion_limit : nat := 25.

Fixpoint run_from (fuel : nat) (n : Node) (s : AgentState) : M AgentState :=
  match n, fuel with
  | END, _ => ret s
  | _, O => lift (Raise (Exn "GraphRecursionError" (u "Recursion limit reached")))
  | _, S fuel' =>
      let* s' := node_action n s in
      run_from fuel' (next_node n s') s'
  end.

(** The graph from its entry point. *)
Definition run_graph (input : AgentState) : M AgentState :=
  run_from recursion_limit n_think input.

(** Modelled from the spec: the commit of a turn to the Checkpoint Store.
    The writer is the compiled graph with its [MemorySaver], which is
    LangGraph's code and is not part of the sources; following section 4.5
    of the specification the state a turn ends with is stored under the
    session id when the turn is done, the stored snapshot is replaced, and
    a turn that raises stores nothing. *)
Definition agent_graph_invoke (input : AgentState) (thread_id : str)
    (store : gmap str AgentState)
    : Trace -> result AgentState * gmap str AgentState * Trace :=
  fun t =>
    match run_graph input t with
    | (Ok final_state, t') =>
        (Ok final_state, <[thread_id := final_state]> store, t')
    | (Raise e, t') => (Raise e, store, t')
    end.

(** ** The driver loop of the [__main__] block *)

Record Driver : Type := mkDriver {
  current_state : AgentState;
  checkpointer : gmap str AgentState;
  (** the answers printed so far *)
  stdout : list str
}.

Definition thread_id : str := u "user_001".

Definition initial_driver : Driver :=
  mkDriver get_initial_state ∅ [].

(** The loop over the lines typed by the user.  An exception of
    [agent_graph.invoke] is not handled and ends the program; the loop
    also ends with the exit word, or here with the last line given. *)
Fixpoint main_loop (lines : list str) (d : Driver) : M Driver :=
  match lines with
  | [] => ret d
  | user_input' :: rest =>
      if bool_decide (strip user_input' = u "退出") then ret d
      else
        let input := set_user_input user_input' (current_state d) in
        fun t =>
          match agent_graph_invoke input thread_id (checkpointer d) t with
          | (Ok final_state, store', t') =>
              let synced := set_chat_history (chat_history final_state) input in
              let cleared :=
                set_final_answer []
                  (set_tool_result []
                     (set_tool_input (JDict []) (set_tool_name [] synced))) in
              main_loop rest
                (mkDriver cleared store' (stdout d ++ [final_answer final_state]))
                t'
          | (Raise e, _, t') => (Raise e, t')
          end
  end.

End Agent.

(** ** Reply bookkeeping of [multi_round_chat] (day1_chat_agent.py)

    The body of the event loop for one streamed event whose latest message
    has the given content. *)
Definition record_reply (conversation_history : list Message)
    (latest_content : str) : list Message :=
  if truthy latest_content then
    if negb (existsb
               (fun msg => is_AIMessage msg
                           && bool_decide (content msg = latest_content))
               conversation_history)
    then conversation_history ++ [AIMessage latest_content]
    else conversation_history
  else conversation_history.

(** ** The transcript of a session

    The entries one completed turn leaves in the history, and the history
    that a run of turns with the given answers leaves, oldest first. *)
Definition turn_entries (line answer : str) : list Message :=
  if truthy (strip line) then [HumanMessage (strip line); AIMessage answer]
  else [].

Fixpoint transcript (lines answers : list str) : list Message :=
  match lines, answers with
  | line :: lines', answer :: answers' =>
      turn_entries line answer ++ transcript lines' answers'
  | _, _ => []
  end.

(** ** The chat loop of day1_chat_agent.py *)

(** [search_latest_info(query)] *)
Definition search_latest_info (query : str) : str :=
  u "关于 " ++ query ++ u " 的搜索结果：Python 3.14 运行稳定。".

(** What one call of [agent_executor.astream] delivers to the loop: for
    each event the content of its latest message, and the exception that
    ends the stream after them, if any. *)
Record Outcome : Type := mkOutcome {
  events : list str;
  failure : option PyExn
}.

Definition exit_words : list str := [u "exit"; u "quit"; u "退出"].

(** The contents of the assistant messages of a history, oldest first. *)
Definition ai_contents (h : list Message) : list str :=
  content <$> filter (fun m => is_AIMessage m = true) h.

Section Day1.

(** [str.lower] and the agent: the n-th call of [astream] on the given
    messages. *)
Variable lower : str -> str.
Variable astream : nat -> list Message -> Outcome.

(** One pass of the loop body for a non-empty input: the input is appended,
    every event is recorded, and on an exception the last element is
    popped. *)
Definition chat_round (n : nat) (conversation_history : list Message)
    (user_input' : str) : list Message :=
  let h0 := conversation_history ++ [HumanMessage user_input'] in
  let o := astream n h0 in
  let h1 := foldl record_reply h0 (events o) in
  match failure o with
  | None => h1
  | Some _ => removelast h1
  end.

(** [multi_round_chat] over the lines typed by the user; [n] counts the
    calls of the agent. *)
Fixpoint multi_round_chat (lines : list str) (n : nat)
    (conversation_history : list Message) : nat * list Message :=
  match lines with
  | [] => (n, conversation_history)
  | line :: rest =>
      let user_input' := strip line in
      if bool_decide (lower user_input' ∈ exit_words) then
        (n, conversation_history)
      else if negb (truthy user_input') then
        multi_round_chat rest n conversation_history
      else
        multi_round_chat rest (S n)
          (chat_round n conversation_history user_input')
  end.

End Day1.

(** The first character of a string, if any, is not whitespace. *)
Definition clean_head (s : str) : Prop :=
  match s with
  | [] => True
  | c :: _ => isspace c = false
  end.

(** The driver starts a turn with the tool fields and the answer empty. *)
Definition cleared (s : AgentState) : Prop :=
  tool_name s = [] /\ tool_input s = JDict []
  /\ tool_result s = [] /\ final_answer s = [].

(** The text the tool node stores for a state. *)
Definition tool_text (ext : Externals) (s : AgentState) : str :=
  match tools ext !! tool_name s with
  | None => u "未知工具：" ++ tool_name s
  | Some tl =>
      match invoke ext tl (tool_input s) with
      | Ok text => text
      | Raise e => u "工具执行出错：" ++ exn_str e
      end
  end.

(** ** Scripted worlds

    Concrete collaborators for the examples: the model answers the n-th
    call with the n-th scripted reply, and [json.loads], [eval] and the tool
    wrapper are given on the texts the examples use. *)

Definition decision_foo : str := uq "{`tool_name`:`foo`,`tool_input`:{}}".
Definition decision_no_input : str := uq "{`tool_name`:`calculator`}".
Definition decision_number : str := uq "{`tool_name`:5,`tool_input`:{}}".
Definition decision_calc : str :=
  uq "{`tool_name`:`calculator`,`tool_input`:{`expression`:`1+2*3`}}".
Definition decision_bad_calc : str :=
  uq "{`tool_name`:`calculator`,`tool_input`:{`expression`:`1+`}}".

Definition json_table (s : str) : result JSON :=
  if bool_decide (s = decision_foo) then
    Ok (JDict [(u "tool_name", JStr (u "foo")); (u "tool_input", JDict [])])
  else if bool_decide (s = decision_no_input) then
    Ok (JDict [(u "tool_name", JStr (u "calculator"))])
  else if bool_decide (s = decision_number) then
    Ok (JDict [(u "tool_name", JNumber (u "5")); (u "tool_input", JDict [])])
  else if bool_decide (s = decision_calc) then
    Ok (JDict [(u "tool_name", JStr (u "calculator"));
               (u "tool_input", JDict [(u "expression", JStr (u "1+2*3"))])])
  else if bool_decide (s = decision_bad_calc) then
    Ok (JDict [(u "tool_name", JStr (u "calculator"));
               (u "tool_input", JDict [(u "expression", JStr (u "1+"))])])
  else Raise (Exn "JSONDecodeError" (u "Expecting value")).

Definition eval_table (s : str) : result str :=
  if bool_decide (s = u "1+2*3") then Ok (u "7")
  else Raise (Exn "SyntaxError" (u "invalid syntax")).

Definition parse_input_table (arg : str) (input : JSON) : result str :=
  match input with
  | JDict d =>
      match dict_lookup arg d with
      | Some (JStr v) => Ok v
      | _ => Raise (Exn "ValidationError" (u "Field required"))
      end
  | JStr v => Ok v
  | _ => Raise (Exn "ValidationError" (u "Input should be a valid string"))
  end.

Definition model_down : PyExn := Exn "ConnectionError" (u "model unavailable").

Definition scripted (replies : list (result str)) : Externals :=
  {| llm := fun t _ => default (Raise model_down) (replies !! length t);
     json_loads := json_table;
     py_eval := eval_table;
     requests_get_json := fun _ => Raise (Exn "ConnectionError" (u "unreachable"));
     py_repr := fun _ => u "?";
     tool_parse_input := parse_input_table |}.

Definition hi : str := u "你好".
Definition hello : str := u "你好！有什么可以帮你的吗？".

(** For the chat loop: [lower] on the letters A to Z, and an agent whose
    n-th call delivers the n-th scripted outcome. *)
Definition ascii_lower (s : str) : str :=
  (fun c => if (65 <=? c) && (c <=? 90) then c + 32 else c) <$> s.

Definition scripted_stream (outcomes : list Outcome)
    : nat -> list Message -> Outcome :=
  fun n _ => default (mkOutcome [] (Some model_down)) (outcomes !! n).

(** ** Basic facts *)

Lemma strip_nil : strip [] = [].
Proof. reflexivity. Qed.

Lemma truthy_false (s : str) : truthy s = false <-> s = [].
Proof. destruct s; simpl; split; congruence. Qed.

Lemma truthy_true (s : str) : truthy s = true <-> s ≠ [].
Proof. destruct s; simpl; split; congruence. Qed.

Lemma tools_lookup_None (ext : Externals) (name : str) :
  name ≠ u "weather_query" -> name ≠ u "calculator" ->
  tools ext !! name = None.
Proof.
  intros H1 H2. unfold tools.
  rewrite lookup_insert_ne by congruence.
  rewrite lookup_insert_ne by congruence.
  apply lookup_empty.
Qed.

Lemma tools_lookup_calculator (ext : Externals) :
  tools ext !! u "calculator" = Some (mkTool (u "expression") (calculator ext)).
Proof.
  unfold tools. rewrite lookup_insert_ne by (vm_compute; congruence).
  apply lookup_insert_eq.
Qed.


Lemma weather_query_total (ext : Externals) (city : str) :
  exists text, weather_query ext city = Ok text.
Proof.
  unfold weather_query, rcatch.
  match goal with |- context [match ?x with Ok _ => _ | Raise _ => _ end] =>
    destruct x end; eauto.
Qed.

(** ** What each node does to the state *)

Ltac run_monad :=
  unfold bind, ret, lift, try_except, llm_invoke in *; simpl in *.

Lemma think_node_blank (ext : Externals) (s : AgentState) (t : Trace) :
  strip (user_input s) = [] ->
  think_node ext s t = (Ok (set_tool_input (JDict []) (set_tool_name [] s)), t).
Proof. intros H. unfold think_node. rewrite H. reflexivity. Qed.

Lemma answer_node_blank (ext : Externals) (s : AgentState) (t : Trace) :
  strip (user_input s) = [] ->
  answer_node ext s t
  = (Ok (set_chat_history (chat_history s) (set_final_answer clarification s)), t).
Proof. intros H. unfold answer_node. rewrite H. reflexivity. Qed.

Lemma answer_node_ok (ext : Externals) (s : AgentState) (t : Trace) (reply : str) :
  strip (user_input s) ≠ [] ->
  llm ext t (answer_prompt (chat_history s) (strip (user_input s)) (tool_result s))
  = Ok reply ->
  answer_node ext s t
  = (Ok (set_chat_history
           (chat_history s ++ [HumanMessage (strip (user_input s)); AIMessage reply])
           (set_final_answer reply s)),
     t ++ [answer_prompt (chat_history s) (strip (user_input s)) (tool_result s)]).
Proof.
  intros Hne Hllm. apply truthy_true in Hne.
  unfold answer_node. rewrite Hne. run_monad. rewrite Hllm. reflexivity.
Qed.

Lemma answer_node_raise (ext : Externals) (s : AgentState) (t : Trace) (e : PyExn) :
  strip (user_input s) ≠ [] ->
  llm ext t (answer_prompt (chat_history s) (strip (user_input s)) (tool_result s))
  = Raise e ->
  answer_node ext s t
  = (Raise e,
     t ++ [answer_prompt (chat_history s) (strip (user_input s)) (tool_result s)]).
Proof.
  intros Hne Hllm. apply truthy_true in Hne.
  unfold answer_node. rewrite Hne. run_monad. rewrite Hllm. reflexivity.
Qed.

(** Every successful run of the answer node is one of the two cases. *)
Lemma answer_node_inv (ext : Externals) (s s' : AgentState) (t t' : Trace) :
  answer_node ext s t = (Ok s', t') ->
  chat_history s'
  = chat_history s
    ++ (if truthy (strip (user_input s))
        then [HumanMessage (strip (user_input s)); AIMessage (final_answer s')]
        else [])
  /\ user_input s' = user_input s /\ tool_name s' = tool_name s
  /\ tool_input s' = tool_input s /\ tool_result s' = tool_result s.
Proof.
  unfold answer_node. destruct (truthy (strip (user_input s))) eqn:E; run_monad.
  - destruct (llm ext t _); intros [= <- <-]; simpl; auto.
  - intros [= <- <-]; simpl. rewrite app_nil_r. auto.
Qed.

Lemma think_node_frame (ext : Externals) (s s' : AgentState) (t t' : Trace) :
  think_node ext s t = (Ok s', t') ->
  user_input s' = user_input s /\ chat_history s' = chat_history s
  /\ tool_result s' = tool_result s /\ final_answer s' = final_answer s.
Proof.
  unfold think_node. destruct (truthy (strip (user_input s))); run_monad.
  - destruct (llm ext t _) as [reply|e]; simpl.
    + destruct (json_loads ext (strip reply)) as [j|e]; simpl.
      * destruct (get_tool_name j); simpl; [|discriminate].
        destruct (py_get j _ _); simpl; [|discriminate].
        intros [= <- <-]; simpl; auto.
      * intros [= <- <-]; simpl; auto.
    + intros [= <- <-]; simpl; auto.
  - intros [= <- <-]; simpl; auto.
Qed.

(** The tool node is total: it yields a state for every input. *)
Lemma tool_node_result (ext : Externals) (s : AgentState) (t : Trace) :
  tool_node ext s t
  = (Ok (set_tool_result
           (match tools ext !! tool_name s with
            | None => u "未知工具：" ++ tool_name s
            | Some tl =>
                match invoke ext tl (tool_input s) with
                | Ok text => text
                | Raise e => u "工具执行出错：" ++ exn_str e
                end
            end) s), t).
Proof.
  unfold tool_node. run_monad.
  destruct (tools ext !! tool_name s) as [tl|]; simpl; [|reflexivity].
  destruct (invoke ext tl (tool_input s)); reflexivity.
Qed.

(** ** Running the graph *)

Lemma run_from_step (ext : Externals) (fuel : nat) (n : Node) (s : AgentState) (t : Trace) :
  n ≠ END ->
  run_from ext (S fuel) n s t
  = match node_action ext n s t with
    | (Ok s', t') => run_from ext fuel (next_node n s') s' t'
    | (Raise e, t') => (Raise e, t')
    end.
Proof. destruct n; try congruence; reflexivity. Qed.

Lemma run_from_END (ext : Externals) (fuel : nat) (s : AgentState) (t : Trace) :
  run_from ext fuel END s t = (Ok s, t).
Proof. destruct fuel; reflexivity. Qed.

(** From the answer node the run is the answer node itself. *)
Lemma run_from_answer (ext : Externals) (fuel : nat) (s : AgentState) (t : Trace) :
  run_from ext (S fuel) n_answer s t = answer_node ext s t.
Proof.
  rewrite run_from_step by discriminate. simpl.
  destruct (answer_node ext s t) as [[s'|e] t']; [apply run_from_END | reflexivity].
Qed.

Lemma run_from_tool (ext : Externals) (fuel : nat) (s : AgentState) (t : Trace) :
  run_from ext (S (S fuel)) n_tool s t
  = answer_node ext
      (set_tool_result
         (match tools ext !! tool_name s with
          | None => u "未知工具：" ++ tool_name s
          | Some tl =>
              match invoke ext tl (tool_input s) with
              | Ok text => text
              | Raise e => u "工具执行出错：" ++ exn_str e
              end
          end) s) t.
Proof.
  rewrite run_from_step by discriminate. simpl node_action.
  rewrite tool_node_result. simpl next_node. apply run_from_answer.
Qed.

(** The whole run, split at the decision. *)
Lemma run_graph_unfold (ext : Externals) (input : AgentState) (t : Trace) :
  run_graph ext input t
  = match think_node ext input t with
    | (Ok s1, t1) =>
        match should_call_tool s1 with
        | n_tool =>
            match tool_node ext s1 t1 with
            | (Ok s2, t2) => answer_node ext s2 t2
            | (Raise e, t2) => (Raise e, t2)
            end
        | _ => answer_node ext s1 t1
        end
    | (Raise e, t1) => (Raise e, t1)
    end.
Proof.
  unfold run_graph, recursion_limit. rewrite run_from_step by discriminate.
  simpl node_action. destruct (think_node ext input t) as [[s1|e] t1]; [|reflexivity].
  simpl next_node. unfold should_call_tool.
  destruct (truthy (strip (tool_name s1))).
  - rewrite run_from_tool, tool_node_result. reflexivity.
  - apply run_from_answer.
Qed.

(** C9. The edge out of the decision is a function of [tool_name] alone:
    a name that is non-empty after stripping whitespace leads to the tool
    node, any other to the answer node; and the edge out of the tool node
    always leads to the answer node. *)
Theorem routing_by_tool_name (ext : Externals) :
  (forall s1 s2 : AgentState,
      tool_name s1 = tool_name s2 -> should_call_tool s1 = should_call_tool s2)
  /\ (forall s : AgentState,
         strip (tool_name s) ≠ [] -> next_node n_think s = n_tool)
  /\ (forall s : AgentState,
         strip (tool_name s) = [] -> next_node n_think s = n_answer)
  /\ (forall (s : AgentState) (t : Trace) (c : Config),
         step ext (n_think, s, t) c ->
         c.1.1 = if truthy (strip (tool_name c.1.2)) then n_tool else n_answer)
  /\ (forall (s : AgentState) (t : Trace) (c : Config),
         step ext (n_tool, s, t) c -> c.1.1 = n_answer)
  /\ (forall (s : AgentState) (t : Trace),
         exists s', step ext (n_tool, s, t) (n_answer, s', t)).
Proof.
  repeat split.
  - intros s1 s2 H. unfold should_call_tool. rewrite H. reflexivity.
  - intros s H. apply truthy_true in H. simpl. unfold should_call_tool.
    rewrite H. reflexivity.
  - intros s H. simpl. unfold should_call_tool. rewrite H. reflexivity.
  - intros s t c H. inversion H; subst. reflexivity.
  - intros s t c H. inversion H; subst. reflexivity.
  - intros s t. eexists.
    apply (step_node ext n_tool s t _ t); [discriminate|].
    simpl. apply tool_node_result.
Qed.

Lemma routing_by_tool_name_witness :
  should_call_tool (set_tool_name (u " calculator ") get_initial_state) = n_tool
  /\ should_call_tool (set_tool_name (u "  ") get_initial_state) = n_answer.
Proof.
  destruct (routing_by_tool_name (scripted [])) as (_ & Ht & Ha & _).
  split; [apply Ht | apply Ha]; vm_compute; congruence.
Defined.

(** C10. A node leaves the fields of the other nodes alone: the decision
    changes at most [tool_name] and [tool_input], the tool node at most
    [tool_result], and the answer node at most [final_answer] and
    [chat_history]. *)
Theorem stage_frames (ext : Externals) :
  (forall (s s' : AgentState) (t t' : Trace),
      think_node ext s t = (Ok s', t') ->
      user_input s' = user_input s /\ chat_history s' = chat_history s
      /\ tool_result s' = tool_result s /\ final_answer s' = final_answer s)
  /\ (forall (s s' : AgentState) (t t' : Trace),
         tool_node ext s t = (Ok s', t') ->
         user_input s' = user_input s /\ chat_history s' = chat_history s
         /\ tool_name s' = tool_name s /\ tool_input s' = tool_input s
         /\ final_answer s' = final_answer s)
  /\ (forall (s s' : AgentState) (t t' : Trace),
         answer_node ext s t = (Ok s', t') ->
         user_input s' = user_input s /\ tool_name s' = tool_name s
         /\ tool_input s' = tool_input s /\ tool_result s' = tool_result s).
Proof.
  split; [|split].
  - apply think_node_frame.
  - intros s s' t t'. rewrite tool_node_result. intros [= <- <-]. simpl. auto.
  - intros s s' t t' H. apply answer_node_inv in H. tauto.
Qed.

Lemma stage_frames_witness :
  match think_node (scripted [Ok decision_calc])
          (set_user_input (u "1+2*3") get_initial_state) [] with
  | (Ok s', _) => user_input s' = u "1+2*3" /\ chat_history s' = []
  | (Raise _, _) => False
  end.
Proof.
  destruct (think_node (scripted [Ok decision_calc])
              (set_user_input (u "1+2*3") get_initial_state) [])
    as [[s'|e] t'] eqn:H.
  - destruct (stage_frames (scripted [Ok decision_calc])) as (Hthink & _).
    destruct (Hthink _ _ _ _ H) as (Hu & Hc & _). split; assumption.
  - vm_compute in H. discriminate.
Defined.

(** C6. The tool node never raises: for every state it returns a state whose
    [tool_result] is a text.  An unregistered [tool_name] gives the
    unknown-tool text, an exception of the invoked tool gives the text of
    the failure, and the graph moves on to the answer node in every case. *)
Theorem tool_node_never_raises (ext : Externals) (s : AgentState) (t : Trace) :
  exists text : str,
    tool_node ext s t = (Ok (set_tool_result text s), t)
    /\ (tools ext !! tool_name s = None -> text = u "未知工具：" ++ tool_name s)
    /\ (forall (tl : Tool) (e : PyExn),
           tools ext !! tool_name s = Some tl ->
           invoke ext tl (tool_input s) = Raise e ->
           text = u "工具执行出错：" ++ exn_str e)
    /\ (forall (tl : Tool) (r : str),
           tools ext !! tool_name s = Some tl ->
           invoke ext tl (tool_input s) = Ok r -> text = r)
    /\ step ext (n_tool, s, t) (n_answer, set_tool_result text s, t).
Proof.
  eexists. split; [apply tool_node_result|].
  repeat split.
  - intros ->. reflexivity.
  - intros tl e -> ->. reflexivity.
  - intros tl r -> ->. reflexivity.
  - apply (step_node ext n_tool s t _ t); [discriminate|].
    simpl. apply tool_node_result.
Qed.

Lemma tool_node_never_raises_witness :
  tool_node (scripted [])
    (set_tool_input (JDict [(u "expression", JStr (u "1+"))])
       (set_tool_name (u "calculator") get_initial_state)) []
  = (Ok (set_tool_result (u "计算失败：invalid syntax")
           (set_tool_input (JDict [(u "expression", JStr (u "1+"))])
              (set_tool_name (u "calculator") get_initial_state))), [])
  /\ tool_node (scripted [])
       (set_tool_name (u "translate") get_initial_state) []
     = (Ok (set_tool_result (u "未知工具：translate")
              (set_tool_name (u "translate") get_initial_state)), []).
Proof.
  split.
  - destruct (tool_node_never_raises (scripted [])
                (set_tool_input (JDict [(u "expression", JStr (u "1+"))])
                   (set_tool_name (u "calculator") get_initial_state)) [])
      as (text & Hrun & _ & _ & Hok & _).
    rewrite Hrun.
    rewrite (Hok (mkTool (u "expression") (calculator (scripted [])))
               (u "计算失败：invalid syntax"));
      [reflexivity | apply tools_lookup_calculator | reflexivity].
  - destruct (tool_node_never_raises (scripted [])
                (set_tool_name (u "translate") get_initial_state) [])
      as (text & Hrun & Hunknown & _).
    rewrite Hrun, Hunknown; [reflexivity|].
    apply tools_lookup_None; vm_compute; congruence.
Defined.

(** C7. A turn whose [user_input] is empty or only whitespace sends nothing
    to the model and leaves [chat_history] as it was: the decision is the
    empty one without a model call, and the answer is the fixed request for
    a concrete question. *)
Theorem blank_input_turn (ext : Externals) (input : AgentState) (t : Trace) :
  strip (user_input input) = [] ->
  think_node ext input t
  = (Ok (set_tool_input (JDict []) (set_tool_name [] input)), t)
  /\ exists final : AgentState,
      run_graph ext input t = (Ok final, t)
      /\ chat_history final = chat_history input
      /\ tool_name final = [] /\ tool_input final = JDict []
      /\ final_answer final = clarification.
Proof.
  intros Hblank. split; [apply think_node_blank, Hblank|].
  eexists. rewrite run_graph_unfold, think_node_blank by assumption.
  unfold should_call_tool. simpl tool_name. rewrite strip_nil. simpl.
  rewrite answer_node_blank by assumption. simpl.
  repeat split.
Qed.

Lemma blank_input_turn_witness :
  exists final : AgentState,
    run_graph (scripted [])
      (set_chat_history [HumanMessage hi; AIMessage hello]
         (set_user_input (u "  　") get_initial_state)) []
    = (Ok final, [])
    /\ chat_history final = [HumanMessage hi; AIMessage hello]
    /\ final_answer final = clarification.
Proof.
  destruct (blank_input_turn (scripted [])
              (set_chat_history [HumanMessage hi; AIMessage hello]
                 (set_user_input (u "  　") get_initial_state)) [])
    as (_ & final & Hrun & Hhist & _ & _ & Hans); [reflexivity|].
  exists final. repeat split; assumption.
Defined.

(** ** The decision *)

(** The decision after a reply that parsed to a dict. *)
Lemma think_node_dict (ext : Externals) (s : AgentState) (t : Trace) (reply : str)
    (d : list (str * JSON)) (name : str) :
  strip (user_input s) ≠ [] ->
  llm ext t (think_prompt (strip (user_input s))) = Ok reply ->
  json_loads ext (strip reply) = Ok (JDict d) ->
  default (JStr []) (dict_lookup (u "tool_name") d) = JStr name ->
  think_node ext s t
  = (Ok (set_tool_input (default (JDict []) (dict_lookup (u "tool_input") d))
           (set_tool_name (strip name) s)),
     t ++ [think_prompt (strip (user_input s))]).
Proof.
  intros Hne Hllm Hjson Hname. apply truthy_true in Hne.
  unfold think_node. rewrite Hne. run_monad. rewrite Hllm. simpl.
  rewrite Hjson. simpl. unfold get_tool_name. simpl. rewrite Hname. reflexivity.
Qed.

(** The decision when the model call or the parse raised. *)
Lemma think_node_caught (ext : Externals) (s : AgentState) (t : Trace) :
  strip (user_input s) ≠ [] ->
  (forall reply, llm ext t (think_prompt (strip (user_input s))) = Ok reply ->
                 exists e, json_loads ext (strip reply) = Raise e) ->
  think_node ext s t
  = (Ok (set_tool_input (JDict []) (set_tool_name [] s)),
     t ++ [think_prompt (strip (user_input s))]).
Proof.
  intros Hne Hfail. apply truthy_true in Hne.
  unfold think_node. rewrite Hne. run_monad.
  destruct (llm ext t _) as [reply|e]; simpl; [|reflexivity].
  destruct (Hfail reply eq_refl) as [e ->]. reflexivity.
Qed.

(** Where a non-empty [tool_name] of a decision comes from. *)
Lemma think_node_name_origin (ext : Externals) (s s' : AgentState) (t t' : Trace) :
  think_node ext s t = (Ok s', t') ->
  tool_name s' = []
  \/ exists (reply : str) (d : list (str * JSON)) (name : str),
      llm ext t (think_prompt (strip (user_input s))) = Ok reply
      /\ json_loads ext (strip reply) = Ok (JDict d)
      /\ dict_lookup (u "tool_name") d = Some (JStr name)
      /\ tool_name s' = strip name.
Proof.
  unfold think_node. destruct (truthy (strip (user_input s))); run_monad.
  - destruct (llm ext t _) as [reply|e] eqn:Hllm; simpl.
    + destruct (json_loads ext (strip reply)) as [j|e] eqn:Hjson; simpl.
      * destruct j as [| | | |l|d]; simpl; try discriminate.
        unfold get_tool_name. simpl.
        destruct (dict_lookup (u "tool_name") d) as [v|] eqn:Hname; simpl.
        -- destruct v; simpl; try discriminate.
           intros [= <- <-]. right. eauto 8.
        -- intros [= <- <-]. left. reflexivity.
      * intros [= <- <-]. left. reflexivity.
    + intros [= <- <-]. left. reflexivity.
  - intros [= <- <-]. left. reflexivity.
Qed.

(** C1, as stated, fails: the model names a tool that is not registered
    and the decision carries that name. *)
Lemma think_node_emits_unregistered :
  think_node (scripted [Ok decision_foo])
    (set_user_input (u "帮我翻译") get_initial_state) []
  = (Ok (set_tool_input (JDict [])
           (set_tool_name (u "foo")
              (set_user_input (u "帮我翻译") get_initial_state))),
     [think_prompt (u "帮我翻译")])
  /\ u "foo" ≠ []
  /\ tools (scripted [Ok decision_foo]) !! u "foo" = None.
Proof.
  split; [reflexivity|]. split; [vm_compute; congruence|].
  apply tools_lookup_None; vm_compute; congruence.
Qed.

(** C1 (amended). The [tool_name] of a decision is empty or the stripped
    [tool_name] string of the dict the model's reply parsed to; it is not
    looked up in the registry.  A name that is not registered is met by the
    tool node, which turns it into the unknown-tool text. *)
Theorem decision_name_unchecked (ext : Externals) (s s' : AgentState) (t t' : Trace) :
  think_node ext s t = (Ok s', t') ->
  (tool_name s' = []
   \/ exists (reply : str) (d : list (str * JSON)) (name : str),
       llm ext t (think_prompt (strip (user_input s))) = Ok reply
       /\ json_loads ext (strip reply) = Ok (JDict d)
       /\ dict_lookup (u "tool_name") d = Some (JStr name)
       /\ tool_name s' = strip name)
  /\ (tools ext !! tool_name s' = None ->
      tool_node ext s' t'
      = (Ok (set_tool_result (u "未知工具：" ++ tool_name s') s'), t')).
Proof.
  intros H. split; [eapply think_node_name_origin, H|].
  intros Hnone. rewrite tool_node_result, Hnone. reflexivity.
Qed.

Lemma decision_name_unchecked_witness :
  tool_node (scripted [Ok decision_foo])
    (set_tool_input (JDict [])
       (set_tool_name (u "foo")
          (set_user_input (u "帮我翻译") get_initial_state)))
    [think_prompt (u "帮我翻译")]
  = (Ok (set_tool_result (u "未知工具：foo")
           (set_tool_input (JDict [])
              (set_tool_name (u "foo")
                 (set_user_input (u "帮我翻译") get_initial_state)))),
     [think_prompt (u "帮我翻译")]).
Proof.
  refine (proj2 (decision_name_unchecked (scripted [Ok decision_foo])
                   (set_user_input (u "帮我翻译") get_initial_state) _ [] _ _) _).
  - reflexivity.
  - apply tools_lookup_None; vm_compute; congruence.
Defined.

(** C4, as stated, fails: the reply parses to a dict without the key
    [tool_input], and the decision keeps the tool it names. *)
Lemma think_node_keeps_name_without_input :
  json_loads (scripted [Ok decision_no_input]) (strip decision_no_input)
  = Ok (JDict [(u "tool_name", JStr (u "calculator"))])
  /\ think_node (scripted [Ok decision_no_input])
       (set_user_input (u "1+2*3") get_initial_state) []
     = (Ok (set_tool_input (JDict [])
              (set_tool_name (u "calculator")
                 (set_user_input (u "1+2*3") get_initial_state))),
        [think_prompt (u "1+2*3")])
  /\ u "calculator" ≠ [].
Proof.
  split; [reflexivity|]. split; [reflexivity|]. vm_compute; congruence.
Qed.

(** A reply whose [tool_name] is a number: [strip] is looked up on a value
    that is not a string, outside the [try] block. *)
Lemma think_node_raises_on_number :
  think_node (scripted [Ok decision_number])
    (set_user_input (u "1+2*3") get_initial_state) []
  = (Raise (attribute_error "strip"), [think_prompt (u "1+2*3")]).
Proof. reflexivity. Qed.

(** C4 (amended). When the model call raises or its reply does not parse as
    JSON, the decision is the empty one and nothing is raised.  When the
    reply parses to a dict, a missing [tool_name] becomes the empty name and
    a missing [tool_input] the empty dict, each on its own; a key that is
    there is kept, the name stripped and the input as it came. *)
Theorem think_node_fallbacks (ext : Externals) (s : AgentState) (t : Trace) :
  strip (user_input s) ≠ [] ->
  (forall e : PyExn,
      llm ext t (think_prompt (strip (user_input s))) = Raise e ->
      think_node ext s t
      = (Ok (set_tool_input (JDict []) (set_tool_name [] s)),
         t ++ [think_prompt (strip (user_input s))]))
  /\ (forall (reply : str) (e : PyExn),
         llm ext t (think_prompt (strip (user_input s))) = Ok reply ->
         json_loads ext (strip reply) = Raise e ->
         think_node ext s t
         = (Ok (set_tool_input (JDict []) (set_tool_name [] s)),
            t ++ [think_prompt (strip (user_input s))]))
  /\ (forall (reply : str) (d : list (str * JSON)),
         llm ext t (think_prompt (strip (user_input s))) = Ok reply ->
         json_loads ext (strip reply) = Ok (JDict d) ->
         (dict_lookup (u "tool_name") d = None ->
          think_node ext s t
          = (Ok (set_tool_input
                   (default (JDict []) (dict_lookup (u "tool_input") d))
                   (set_tool_name [] s)),
             t ++ [think_prompt (strip (user_input s))]))
         /\ (forall name : str,
                dict_lookup (u "tool_name") d = Some (JStr name) ->
                think_node ext s t
                = (Ok (set_tool_input
                         (default (JDict []) (dict_lookup (u "tool_input") d))
                         (set_tool_name (strip name) s)),
                   t ++ [think_prompt (strip (user_input s))]))).
Proof.
  intros Hne. repeat split.
  - intros e He. apply think_node_caught; [assumption|].
    intros reply Hr. congruence.
  - intros reply e Hr He. apply think_node_caught; [assumption|].
    intros reply' Hr'. exists e. congruence.
  - intros Hnone.
    rewrite (think_node_dict ext s t reply d []) by (try rewrite Hnone; done).
    reflexivity.
  - intros name Hname.
    apply (think_node_dict ext s t reply d name); try assumption.
    rewrite Hname. reflexivity.
Qed.

Lemma think_node_fallbacks_witness :
  think_node (scripted [Raise model_down])
    (set_user_input hi get_initial_state) []
  = (Ok (set_tool_input (JDict [])
           (set_tool_name [] (set_user_input hi get_initial_state))),
     [think_prompt hi])
  /\ think_node (scripted [Ok hello])
       (set_user_input hi get_initial_state) []
     = (Ok (set_tool_input (JDict [])
              (set_tool_name [] (set_user_input hi get_initial_state))),
        [think_prompt hi]).
Proof.
  split.
  - destruct (think_node_fallbacks (scripted [Raise model_down])
                (set_user_input hi get_initial_state) [])
      as (Hraise & _); [vm_compute; congruence|].
    apply (Hraise model_down). reflexivity.
  - destruct (think_node_fallbacks (scripted [Ok hello])
                (set_user_input hi get_initial_state) [])
      as (_ & Hparse & _); [vm_compute; congruence|].
    apply (Hparse hello (Exn "JSONDecodeError" (u "Expecting value")));
      reflexivity.
Defined.

(** ** The history *)

(** C3, as stated, fails: the history already holds the assistant entry
    [hello]; the answer node is given the same answer again and appends it
    a second time. *)
Lemma answer_node_appends_duplicate :
  answer_node (scripted [Ok hello])
    (set_chat_history [HumanMessage hi; AIMessage hello]
       (set_user_input hi get_initial_state)) []
  = (Ok (set_chat_history
           [HumanMessage hi; AIMessage hello; HumanMessage hi; AIMessage hello]
           (set_final_answer hello (set_user_input hi get_initial_state))),
     [answer_prompt [HumanMessage hi; AIMessage hello] hi []])
  /\ AIMessage hello ∈ [HumanMessage hi; AIMessage hello].
Proof.
  split; [vm_compute; reflexivity|].
  apply list_elem_of_further, list_elem_of_here.
Qed.

Lemma record_reply_present (h : list Message) (c : str) :
  AIMessage c ∈ h -> record_reply h c = h.
Proof.
  intros Hin. unfold record_reply. destruct (truthy c); [|reflexivity].
  replace (existsb _ h) with true; [reflexivity|].
  symmetry. apply existsb_exists. exists (AIMessage c).
  split; [apply list_elem_of_In, Hin|]. simpl. apply bool_decide_eq_true. reflexivity.
Qed.

Lemma record_reply_idempotent (h : list Message) (c : str) :
  record_reply (record_reply h c) c = record_reply h c.
Proof.
  destruct (truthy c) eqn:Hc.
  - destruct (existsb
                (fun msg => is_AIMessage msg && bool_decide (content msg = c)) h)
      eqn:Hex.
    + assert (E : record_reply h c = h)
        by (unfold record_reply; rewrite Hc, Hex; reflexivity).
      rewrite E. exact E.
    + assert (E : record_reply h c = h ++ [AIMessage c])
        by (unfold record_reply; rewrite Hc, Hex; reflexivity).
      rewrite E. apply record_reply_present.
      apply elem_of_app. right. apply list_elem_of_singleton. reflexivity.
  - unfold record_reply. rewrite Hc. reflexivity.
Qed.

(** C3 (amended). A successful answer node on a non-blank [user_input]
    extends the history by exactly the user entry, with the stripped input,
    and the assistant entry with the answer, whether or not the history
    already holds an assistant entry with that content; run again on its own
    result it appends a second pair, while a second run on the same state
    with the same answer gives the same history, the input being copied and
    not changed.  Only the reply bookkeeping of [multi_round_chat] skips an
    assistant entry that is already there. *)
Theorem answer_node_appends_pair (ext : Externals) (s s' : AgentState) (t t' : Trace) :
  strip (user_input s) ≠ [] ->
  answer_node ext s t = (Ok s', t') ->
  chat_history s'
  = chat_history s
    ++ [HumanMessage (strip (user_input s)); AIMessage (final_answer s')]
  /\ length (chat_history s') = (length (chat_history s) + 2)%nat
  /\ (forall (s'' : AgentState) (t'' : Trace),
         answer_node ext s' t' = (Ok s'', t'') ->
         chat_history s''
         = chat_history s
           ++ [HumanMessage (strip (user_input s)); AIMessage (final_answer s')]
           ++ [HumanMessage (strip (user_input s)); AIMessage (final_answer s'')])
  /\ (forall (s2 : AgentState) (t2 t2' : Trace),
         answer_node ext s t2 = (Ok s2, t2') ->
         final_answer s2 = final_answer s' ->
         chat_history s2 = chat_history s')
  /\ (forall (h : list Message) (c : str),
         AIMessage c ∈ h -> record_reply h c = h).
Proof.
  intros Hne H. pose proof Hne as Htrue. apply truthy_true in Htrue.
  apply answer_node_inv in H. destruct H as (Hh & Hu & _).
  rewrite Htrue in Hh. repeat split.
  - exact Hh.
  - rewrite Hh, length_app. reflexivity.
  - intros s'' t'' H2. apply answer_node_inv in H2. destruct H2 as (Hh2 & _).
    rewrite Hu, Htrue in Hh2. rewrite Hh2, Hh, <- app_assoc. reflexivity.
  - intros s2 t2 t2' H2 Hsame. apply answer_node_inv in H2.
    destruct H2 as (Hh2 & _). rewrite Htrue in Hh2.
    rewrite Hh2, Hh, Hsame. reflexivity.
  - apply record_reply_present.
Qed.

Lemma answer_node_appends_pair_witness :
  match answer_node (scripted [Ok hello])
          (set_user_input (u " 你好 ") get_initial_state) [] with
  | (Ok s', _) => chat_history s' = [HumanMessage hi; AIMessage hello]
  | (Raise _, _) => False
  end.
Proof.
  destruct (answer_node (scripted [Ok hello])
              (set_user_input (u " 你好 ") get_initial_state) [])
    as [[s'|e] t'] eqn:H.
  - destruct (answer_node_appends_pair (scripted [Ok hello])
                (set_user_input (u " 你好 ") get_initial_state) s' [] t')
      as (Hh & _); [vm_compute; congruence | exact H |].
    rewrite Hh. vm_compute in H. injection H as <- _. vm_compute. reflexivity.
  - vm_compute in H. discriminate.
Defined.

Lemma run_graph_history (ext : Externals) (input final : AgentState) (t t' : Trace) :
  run_graph ext input t = (Ok final, t') ->
  chat_history final
  = chat_history input ++ turn_entries (user_input input) (final_answer final).
Proof.
  rewrite run_graph_unfold.
  destruct (think_node ext input t) as [[s1|e] t1] eqn:Hthink; [|discriminate].
  apply think_node_frame in Hthink. destruct Hthink as (Hu & Hh & _).
  unfold turn_entries. rewrite <- Hu, <- Hh.
  destruct (should_call_tool s1).
  - apply answer_node_inv.
  - rewrite tool_node_result. intros H. apply answer_node_inv in H.
    simpl in H. apply H.
  - apply answer_node_inv.
  - apply answer_node_inv.
Qed.

Lemma transcript_length (lines answers : list str) :
  length (transcript lines answers)
  = (2 * length (filter (fun l => strip l ≠ []) (take (length answers) lines)))%nat.
Proof.
  revert answers. induction lines as [|line lines IH]; intros [|a answers];
    try reflexivity.
  simpl. rewrite length_app, IH. unfold turn_entries.
  rewrite filter_cons. destruct (strip line) as [|c r].
  - destruct (decide (@nil N ≠ [])) as [X|X]; [contradiction X; reflexivity|].
    simpl. lia.
  - destruct (decide (c :: r ≠ [])) as [X|X]; [|exfalso; apply X; discriminate].
    simpl. lia.
Qed.

(** The history the loop leaves is the one it started with, followed by the
    transcript of the turns it completed. *)
Lemma main_loop_history (ext : Externals) (lines : list str) (d d' : Driver) (t t' : Trace) :
  main_loop ext lines d t = (Ok d', t') ->
  exists answers : list str,
    stdout d' = stdout d ++ answers
    /\ chat_history (current_state d')
       = chat_history (current_state d) ++ transcript lines answers.
Proof.
  revert d t. induction lines as [|line rest IH]; intros d t; simpl.
  - intros [= <- <-]. exists []. rewrite !app_nil_r. auto.
  - case_bool_decide.
    + intros [= <- <-]. exists []. rewrite !app_nil_r. auto.
    + unfold agent_graph_invoke.
      destruct (run_graph ext _ t) as [[final|e] t1] eqn:Hrun; [|discriminate].
      intros Hloop. apply IH in Hloop. destruct Hloop as (answers & Hout & Hh).
      simpl in Hout, Hh. apply run_graph_history in Hrun. simpl in Hrun.
      exists (final_answer final :: answers). split.
      * rewrite Hout, <- app_assoc. reflexivity.
      * rewrite Hh, Hrun, <- app_assoc. reflexivity.
Qed.

(** C5, as stated, fails: one turn with an empty line completes, its answer
    is printed, and the history is still empty. *)
Lemma blank_turn_adds_nothing :
  match main_loop (scripted []) [[]] initial_driver [] with
  | (Ok d, _) =>
      stdout d = [clarification]
      /\ chat_history (current_state d) = []
      /\ length (chat_history (current_state d)) ≠ (2 * 1)%nat
  | (Raise _, _) => False
  end.
Proof. vm_compute. repeat split; congruence. Qed.

(** C5 (amended). In a session that starts from the initial state, after
    the turns the loop has completed the history is the transcript of those
    turns in the order they were made, and its length is twice the number of
    completed turns whose input was not blank: a completed turn on a blank
    input adds nothing. *)
Theorem history_after_turns (ext : Externals) (lines : list str) (d : Driver) (t t' : Trace) :
  main_loop ext lines initial_driver t = (Ok d, t') ->
  chat_history (current_state d) = transcript lines (stdout d)
  /\ length (chat_history (current_state d))
     = (2 * length (filter (fun l => strip l ≠ [])
                      (take (length (stdout d)) lines)))%nat.
Proof.
  intros H. apply main_loop_history in H. destruct H as (answers & Hout & Hh).
  simpl in Hout, Hh. subst answers. split; [exact Hh|].
  rewrite Hh. apply transcript_length.
Qed.

Lemma history_after_turns_witness :
  match main_loop (scripted [Ok hello; Ok hello]) [hi; u "  "]
          initial_driver [] with
  | (Ok d, _) =>
      stdout d = [hello; clarification]
      /\ chat_history (current_state d) = [HumanMessage hi; AIMessage hello]
      /\ length (chat_history (current_state d)) = 2%nat
  | (Raise _, _) => False
  end.
Proof.
  destruct (main_loop (scripted [Ok hello; Ok hello]) [hi; u "  "]
              initial_driver [])
    as [[d|e] t'] eqn:H.
  - destruct (history_after_turns (scripted [Ok hello; Ok hello])
                [hi; u "  "] d [] t' H) as (Hh & Hlen).
    assert (Hout : stdout d = [hello; clarification])
      by (vm_compute in H; injection H as <- _; reflexivity).
    rewrite Hlen, Hh, Hout. vm_compute. repeat split.
  - vm_compute in H. discriminate.
Defined.

(** ** A failing answer *)




(** The answer node raises exactly when its model call does. *)
Lemma answer_node_raise_inv (ext : Externals) (s : AgentState) (t t' : Trace) (e : PyExn) :
  answer_node ext s t = (Raise e, t') ->
  strip (user_input s) ≠ []
  /\ llm ext t (answer_prompt (chat_history s) (strip (user_input s)) (tool_result s))
     = Raise e.
Proof.
  unfold answer_node. destruct (truthy (strip (user_input s))) eqn:E; run_monad.
  - destruct (llm ext t _); [discriminate|]. intros [= <- <-].
    split; [apply truthy_true, E | reflexivity].
  - discriminate.
Qed.


(** The driver does not handle the exception either: the loop ends. *)
Lemma main_loop_stops_on_failure (ext : Externals) (line : str) (rest : list str)
    (d : Driver) (t t' : Trace) (e : PyExn) :
  strip line ≠ u "退出" ->
  run_graph ext (set_user_input line (current_state d)) t = (Raise e, t') ->
  main_loop ext (line :: rest) d t = (Raise e, t').
Proof.
  intros Hne Hrun. simpl. rewrite bool_decide_eq_false_2 by exact Hne.
  unfold agent_graph_invoke. rewrite Hrun. reflexivity.
Qed.


(** ** Two turns with the calculator *)

Example calculator_turn :
  match run_graph (scripted [Ok decision_calc; Ok (u "结果是 7")])
          (set_user_input (u "1+2*3") get_initial_state) [] with
  | (Ok final, _) =>
      tool_name final = u "calculator"
      /\ tool_result final = u "计算结果：1+2*3 = 7"
      /\ chat_history final
         = [HumanMessage (u "1+2*3"); AIMessage (u "结果是 7")]
  | (Raise _, _) => False
  end.
Proof. vm_compute. repeat split. Qed.

Example malformed_expression_turn :
  match run_graph (scripted [Ok decision_bad_calc; Ok (u "表达式有误")])
          (set_user_input (u "1+") get_initial_state) [] with
  | (Ok final, _) =>
      tool_result final = u "计算失败：invalid syntax"
      /\ final_answer final = u "表达式有误"
  | (Raise _, _) => False
  end.
Proof. vm_compute. repeat split. Qed.

(** * Further properties of the code *)

(** ** Stripping *)

Lemma lstrip_clean (s : str) : clean_head (lstrip s).
Proof.
  induction s as [|c r IH]; simpl; [exact I|].
  destruct (isspace c) eqn:E; [exact IH | exact E].
Qed.

Lemma lstrip_id (s : str) : clean_head s -> lstrip s = s.
Proof. destruct s as [|c r]; simpl; [reflexivity|]. intros ->. reflexivity. Qed.

Lemma lstrip_suffix (s : str) : exists p : str, s = p ++ lstrip s.
Proof.
  induction s as [|c r [p IH]]; simpl; [exists []; reflexivity|].
  destruct (isspace c); [|exists []; reflexivity].
  exists (c :: p). simpl. rewrite <- IH. reflexivity.
Qed.

Lemma rstrip_prefix (s : str) : exists q : str, s = rstrip s ++ q.
Proof.
  unfold rstrip. destruct (lstrip_suffix (rev s)) as [p Hp].
  exists (rev p). rewrite <- rev_app_distr, <- Hp, rev_involutive. reflexivity.
Qed.

Lemma rstrip_clean (s : str) : clean_head s -> clean_head (rstrip s).
Proof.
  intros H. destruct (rstrip_prefix s) as [q Hq].
  destruct (rstrip s) as [|c r]; [exact I|].
  rewrite Hq in H. exact H.
Qed.

Lemma rstrip_idem (s : str) : rstrip (rstrip s) = rstrip s.
Proof.
  unfold rstrip. rewrite rev_involutive.
  rewrite (lstrip_id (lstrip (rev s))) by apply lstrip_clean. reflexivity.
Qed.

Lemma strip_clean (s : str) : clean_head (strip s).
Proof. apply rstrip_clean, lstrip_clean. Qed.

Lemma strip_idem (s : str) : strip (strip s) = strip s.
Proof.
  unfold strip at 1. rewrite lstrip_id by apply strip_clean.
  unfold strip. apply rstrip_idem.
Qed.

(** ** The decision, continued *)

Lemma think_node_name_clean (ext : Externals) (s s' : AgentState)
    (t t' : Trace) :
  think_node ext s t = (Ok s', t') -> strip (tool_name s') = tool_name s'.
Proof.
  intros H. apply think_node_name_origin in H.
  destruct H as [-> | (reply & d & name & _ & _ & _ & ->)];
    [reflexivity | apply strip_idem].
Qed.

(** X1. The name a decision carries has no whitespace around it, so the
    graph goes to the tool node exactly when the name is not empty. *)
Theorem decision_name_stripped (ext : Externals) (s s' : AgentState)
    (t t' : Trace) :
  think_node ext s t = (Ok s', t') ->
  strip (tool_name s') = tool_name s'
  /\ (should_call_tool s' = n_tool <-> tool_name s' ≠ [])
  /\ (should_call_tool s' = n_answer <-> tool_name s' = []).
Proof.
  intros H. apply think_node_name_clean in H.
  split; [exact H|]. unfold should_call_tool. rewrite H.
  destruct (tool_name s'); simpl; split; split; congruence.
Qed.

Lemma decision_name_stripped_witness :
  match think_node (scripted [Ok decision_calc])
          (set_user_input (u "1+2*3") get_initial_state) [] with
  | (Ok s', _) => should_call_tool s' = n_tool <-> tool_name s' ≠ []
  | (Raise _, _) => False
  end.
Proof.
  destruct (think_node (scripted [Ok decision_calc])
              (set_user_input (u "1+2*3") get_initial_state) [])
    as [[s'|e] t'] eqn:H.
  - exact (proj1 (proj2 (decision_name_stripped _ _ _ _ _ H))).
  - vm_compute in H. discriminate.
Defined.

(** X2. The decision raises in exactly one situation: the input is not
    blank, the model replied, the reply parsed as JSON, and the value is not
    a dict or its [tool_name] is not a string.  The exception is an
    [AttributeError] and the decision prompt has been sent. *)
Theorem think_node_raises_iff (ext : Externals) (s : AgentState)
    (t t' : Trace) (e : PyExn) :
  think_node ext s t = (Raise e, t')
  <-> strip (user_input s) ≠ []
      /\ t' = t ++ [think_prompt (strip (user_input s))]
      /\ exists (reply : str) (j : JSON),
          llm ext t (think_prompt (strip (user_input s))) = Ok reply
          /\ json_loads ext (strip reply) = Ok j
          /\ get_tool_name j = Raise e
          /\ (exists msg, e = Exn "AttributeError" msg)
          /\ ((forall d, j ≠ JDict d)
              \/ exists d v, j = JDict d
                             /\ dict_lookup (u "tool_name") d = Some v
                             /\ forall name, v ≠ JStr name).
Proof.
  unfold think_node. destruct (truthy (strip (user_input s))) eqn:Hb; run_monad.
  - apply truthy_true in Hb. split.
    + destruct (llm ext t _) as [reply|e0] eqn:Hllm; simpl; [|discriminate].
      destruct (json_loads ext (strip reply)) as [j|e0] eqn:Hjson; simpl;
        [|discriminate].
      destruct (get_tool_name j) as [name|e0] eqn:Hname; simpl.
      * unfold get_tool_name in Hname.
        destruct j; simpl in Hname; discriminate.
      * intros [= -> <-]. split; [exact Hb|]. split; [reflexivity|].
        exists reply, j. repeat split; try assumption.
        -- unfold get_tool_name, attribute_error in Hname.
           destruct j as [| | | |l|d]; simpl in Hname;
             try (injection Hname as <-; eauto).
           destruct (default (JStr []) (dict_lookup (u "tool_name") d));
             simpl in Hname; try discriminate; injection Hname as <-; eauto.
        -- unfold get_tool_name in Hname.
           destruct j as [| | | |l|d]; try (left; congruence).
           right. simpl in Hname.
           destruct (dict_lookup (u "tool_name") d) as [v|] eqn:Hv;
             simpl in Hname; [|discriminate].
           exists d, v. split; [reflexivity|]. split; [exact Hv|].
           intros name ->. discriminate Hname.
    + intros (_ & -> & reply & j & -> & Hj & Hname & _). simpl.
      rewrite Hj. simpl. rewrite Hname. reflexivity.
  - apply truthy_false in Hb. split; [discriminate|]. tauto.
Qed.

Lemma think_node_raises_iff_witness :
  exists e : PyExn,
    think_node (scripted [Ok decision_number])
      (set_user_input (u "1+2*3") get_initial_state) []
    = (Raise e, [think_prompt (u "1+2*3")]).
Proof.
  exists (attribute_error "strip").
  apply (proj2 (think_node_raises_iff (scripted [Ok decision_number])
                  (set_user_input (u "1+2*3") get_initial_state)
                  [] _ (attribute_error "strip"))).
  split; [vm_compute; congruence|]. split; [reflexivity|].
  exists decision_number,
    (JDict [(u "tool_name", JNumber (u "5")); (u "tool_input", JDict [])]).
  repeat split; try (vm_compute; reflexivity).
  - eexists. reflexivity.
  - right. eexists _, _. repeat split; try (vm_compute; reflexivity).
    intros name. discriminate.
Defined.

(** ** The tools, continued *)




(** X4. [weather_query] returns a text in every case.  A failing request
    gives the text of its exception after the marker of the [except]
    branch, and a reply whose [desc] is not the string [success] gives that
    [desc] after the marker of a failed query. *)
Theorem weather_query_outcomes (ext : Externals) (city : str) :
  (exists text : str, weather_query ext city = Ok text)
  /\ (forall e : PyExn,
         requests_get_json ext
           (u "http://wthrcdn.etouch.cn/weather_mini?city=" ++ city) = Raise e ->
         weather_query ext city = Ok (u "天气查询异常：" ++ exn_str e))
  /\ (forall (d : list (str * JSON)) (desc : JSON),
         requests_get_json ext
           (u "http://wthrcdn.etouch.cn/weather_mini?city=" ++ city)
         = Ok (JDict d) ->
         dict_lookup (u "desc") d = Some desc ->
         eq_str desc (u "success") = false ->
         weather_query ext city = Ok (u "查询失败：" ++ fmt ext desc))
  /\ (forall data : JSON,
         requests_get_json ext
           (u "http://wthrcdn.etouch.cn/weather_mini?city=" ++ city)
         = Ok data ->
         (forall d, data ≠ JDict d) ->
         exists msg : str,
           weather_query ext city = Ok (u "天气查询异常：" ++ msg)).
Proof.
  split; [apply weather_query_total|]. unfold weather_query. repeat split.
  - intros e ->. reflexivity.
  - intros d desc -> Hdesc Hne. cbn [rbind py_getitem].
    rewrite Hdesc. cbn [rbind]. rewrite Hne. reflexivity.
  - intros data -> Hnd. destruct data; simpl; eauto.
    exfalso. eapply Hnd. reflexivity.
Qed.

Lemma weather_query_outcomes_witness :
  weather_query (scripted []) (u "北京") = Ok (u "天气查询异常：unreachable").
Proof.
  exact (proj1 (proj2 (weather_query_outcomes (scripted []) (u "北京")))
           (Exn "ConnectionError" (u "unreachable")) eq_refl).
Defined.

(** ** The prompts of a turn *)

Lemma think_node_trace (ext : Externals) (s : AgentState) (t t1 : Trace)
    (r : result AgentState) :
  strip (user_input s) ≠ [] ->
  think_node ext s t = (r, t1) ->
  t1 = t ++ [think_prompt (strip (user_input s))].
Proof.
  intros Hne. apply truthy_true in Hne. unfold think_node. rewrite Hne.
  run_monad. destruct (llm ext t _) as [reply|e]; simpl.
  - destruct (json_loads ext (strip reply)) as [j|e]; simpl.
    + destruct (get_tool_name j); simpl; [|congruence].
      destruct (py_get j _ _); simpl; congruence.
    + congruence.
  - congruence.
Qed.

Lemma answer_node_ok_inv (ext : Externals) (s s' : AgentState) (t t' : Trace) :
  strip (user_input s) ≠ [] ->
  answer_node ext s t = (Ok s', t') ->
  t' = t ++ [answer_prompt (chat_history s) (strip (user_input s)) (tool_result s)]
  /\ llm ext t (answer_prompt (chat_history s) (strip (user_input s)) (tool_result s))
     = Ok (final_answer s').
Proof.
  intros Hne. apply truthy_true in Hne. unfold answer_node. rewrite Hne.
  run_monad. destruct (llm ext t _); [|discriminate].
  intros [= <- <-]. auto.
Qed.

(** A completed run, split at the decision. *)
Lemma run_graph_ok_inv (ext : Externals) (input final : AgentState)
    (t t' : Trace) :
  run_graph ext input t = (Ok final, t') ->
  exists (s1 : AgentState) (t1 : Trace),
    think_node ext input t = (Ok s1, t1)
    /\ answer_node ext
         (if truthy (tool_name s1)
          then set_tool_result (tool_text ext s1) s1 else s1) t1
       = (Ok final, t').
Proof.
  rewrite run_graph_unfold.
  destruct (think_node ext input t) as [[s1|e] t1] eqn:Hthink; [|discriminate].
  pose proof (think_node_name_clean _ _ _ _ _ Hthink) as Hs.
  unfold should_call_tool. rewrite Hs. intros H. exists s1, t1.
  split; [reflexivity|].
  destruct (truthy (tool_name s1)); [|exact H].
  rewrite tool_node_result in H. exact H.
Qed.

Lemma run_graph_trace (ext : Externals) (input final : AgentState)
    (t t' : Trace) :
  strip (user_input input) ≠ [] ->
  run_graph ext input t = (Ok final, t') ->
  t' = t ++ [think_prompt (strip (user_input input));
             answer_prompt (chat_history input) (strip (user_input input))
               (tool_result final)].
Proof.
  intros Hne H. apply run_graph_ok_inv in H.
  destruct H as (s1 & t1 & Hthink & Hans).
  pose proof (think_node_trace _ _ _ _ _ Hne Hthink) as ->.
  apply think_node_frame in Hthink. destruct Hthink as (Hu & Hh & _).
  pose proof Hans as Hinv. apply answer_node_inv in Hinv.
  destruct Hinv as (_ & _ & _ & _ & Hr').
  apply answer_node_ok_inv in Hans.
  - destruct Hans as [-> _]. rewrite <- Hr', <- app_assoc.
    destruct (truthy (tool_name s1));
      cbn [user_input chat_history set_tool_result]; rewrite Hu, Hh; reflexivity.
  - destruct (truthy (tool_name s1));
      cbn [user_input set_tool_result]; rewrite Hu; exact Hne.
Qed.

(** X5. A completed turn on an input that is not blank sends exactly two
    prompts: the decision prompt, built from the stripped input alone, and
    then the answer prompt with the history the turn started from and the
    tool result it ends with.  That tool result is the text of the tool node
    when the decision names a tool, and the one the turn started with when
    it does not. *)
Theorem completed_turn_prompts (ext : Externals) (input final : AgentState)
    (t t' : Trace) :
  strip (user_input input) ≠ [] ->
  run_graph ext input t = (Ok final, t') ->
  t' = t ++ [think_prompt (strip (user_input input));
             answer_prompt (chat_history input) (strip (user_input input))
               (tool_result final)]
  /\ tool_result final
     = (if truthy (tool_name final) then tool_text ext final
        else tool_result input).
Proof.
  intros Hne H. split; [eapply run_graph_trace; eassumption|].
  apply run_graph_ok_inv in H. destruct H as (s1 & t1 & Hthink & Hans).
  apply think_node_frame in Hthink. destruct Hthink as (_ & _ & Hr & _).
  apply answer_node_inv in Hans. destruct Hans as (_ & _ & Hn' & Hi' & Hr').
  destruct (truthy (tool_name s1)) eqn:Hn.
  - cbn [tool_name tool_input tool_result set_tool_result] in Hn', Hi', Hr'.
    rewrite Hn', Hn, Hr'. unfold tool_text. rewrite Hn', Hi'. reflexivity.
  - rewrite Hn', Hn, Hr'. exact Hr.
Qed.

Lemma completed_turn_prompts_witness :
  match run_graph (scripted [Ok decision_calc; Ok (u "结果是 7")])
          (set_user_input (u "1+2*3") get_initial_state) [] with
  | (Ok final, t') =>
      t' = [think_prompt (u "1+2*3");
            answer_prompt [] (u "1+2*3") (u "计算结果：1+2*3 = 7")]
  | (Raise _, _) => False
  end.
Proof.
  destruct (run_graph (scripted [Ok decision_calc; Ok (u "结果是 7")])
              (set_user_input (u "1+2*3") get_initial_state) [])
    as [[final|e] t'] eqn:H.
  - destruct (completed_turn_prompts
                (scripted [Ok decision_calc; Ok (u "结果是 7")])
                (set_user_input (u "1+2*3") get_initial_state) final [] t')
      as [-> _]; [vm_compute; congruence | exact H |].
    vm_compute in H. injection H as <- _. vm_compute. reflexivity.
  - vm_compute in H. discriminate.
Defined.

(** X6. A turn can fail in two places only: in the decision, or in the model
    call of the answer node after the turn has come that far.  The tool node
    is never where a turn fails. *)
Theorem turn_failure_causes (ext : Externals) (input : AgentState)
    (t t' : Trace) (e : PyExn) :
  run_graph ext input t = (Raise e, t') ->
  think_node ext input t = (Raise e, t')
  \/ exists (s_a : AgentState) (t_a : Trace),
      rtc (step ext) (n_think, input, t) (n_answer, s_a, t_a)
      /\ strip (user_input input) ≠ []
      /\ llm ext t_a
           (answer_prompt (chat_history input) (strip (user_input input))
              (tool_result s_a)) = Raise e
      /\ t' = t_a ++ [answer_prompt (chat_history input)
                        (strip (user_input input)) (tool_result s_a)].
Proof.
  rewrite run_graph_unfold.
  destruct (think_node ext input t) as [[s1|e1] t1] eqn:Hthink;
    [|intros [= <- <-]; left; reflexivity].
  intros H. right.
  assert (Hstep1 : step ext (n_think, input, t) (should_call_tool s1, s1, t1))
    by (apply (step_node ext n_think input t s1 t1); [discriminate | exact Hthink]).
  apply think_node_frame in Hthink. destruct Hthink as (Hu & Hh & _).
  assert (Hcase : exists s_a t_a,
             rtc (step ext) (n_think, input, t) (n_answer, s_a, t_a)
             /\ answer_node ext s_a t_a = (Raise e, t')
             /\ user_input s_a = user_input input
             /\ chat_history s_a = chat_history input).
  { destruct (should_call_tool s1) eqn:Hroute.
    - unfold should_call_tool in Hroute. destruct (truthy _); discriminate.
    - rewrite tool_node_result in H. fold (tool_text ext s1) in H.
      exists (set_tool_result (tool_text ext s1) s1), t1. repeat split; auto.
      eapply rtc_l; [exact Hstep1|]. eapply rtc_l; [|apply rtc_refl].
      apply (step_node ext n_tool s1 t1 _ t1); [discriminate|].
      simpl. apply tool_node_result.
    - exists s1, t1. repeat split; auto.
      eapply rtc_l; [exact Hstep1 | apply rtc_refl].
    - unfold should_call_tool in Hroute. destruct (truthy _); discriminate. }
  destruct Hcase as (s_a & t_a & Hreach & Hans & Hua & Hha).
  exists s_a, t_a. split; [exact Hreach|].
  pose proof (answer_node_raise_inv _ _ _ _ _ Hans) as (Hne & Hllm).
  rewrite Hua, Hha in Hllm. rewrite Hua in Hne.
  split; [exact Hne|]. split; [exact Hllm|].
  rewrite (answer_node_raise ext s_a t_a e) in Hans
    by (rewrite ?Hua, ?Hha; assumption).
  injection Hans as <-. rewrite Hua, Hha. reflexivity.
Qed.

Lemma turn_failure_causes_witness :
  think_node (scripted [Ok decision_number])
    (set_user_input (u "1+2*3") get_initial_state) []
  = (Raise (attribute_error "strip"), [think_prompt (u "1+2*3")])
  \/ exists (s_a : AgentState) (t_a : Trace),
      rtc (step (scripted [Ok decision_number]))
        (n_think, set_user_input (u "1+2*3") get_initial_state, [])
        (n_answer, s_a, t_a).
Proof.
  destruct (turn_failure_causes (scripted [Ok decision_number])
              (set_user_input (u "1+2*3") get_initial_state)
              [] [think_prompt (u "1+2*3")] (attribute_error "strip"))
    as [H | (s_a & t_a & H & _)];
    [vm_compute; reflexivity | left; exact H | right; eauto].
Defined.

(** X7. A decision that names a tool missing from the registry does not end
    the turn: the tool node stores the unknown-tool text, the answer prompt
    carries that text to the model, and the turn completes with the model's
    answer appended to the history. *)
Theorem unknown_tool_turn (ext : Externals) (input s1 : AgentState)
    (t t1 : Trace) (reply : str) :
  think_node ext input t = (Ok s1, t1) ->
  tool_name s1 ≠ [] ->
  tools ext !! tool_name s1 = None ->
  llm ext t1
    (answer_prompt (chat_history input) (strip (user_input input))
       (u "未知工具：" ++ tool_name s1)) = Ok reply ->
  exists final : AgentState,
    run_graph ext input t
    = (Ok final,
       t1 ++ [answer_prompt (chat_history input) (strip (user_input input))
                (u "未知工具：" ++ tool_name s1)])
    /\ tool_result final = u "未知工具：" ++ tool_name s1
    /\ final_answer final = reply
    /\ chat_history final
       = chat_history input
         ++ [HumanMessage (strip (user_input input)); AIMessage reply].
Proof.
  intros Hthink Hname Hnone Hllm.
  assert (Hne : strip (user_input input) ≠ []).
  { intros Hblank. rewrite think_node_blank in Hthink by exact Hblank.
    injection Hthink as <- _. apply Hname. reflexivity. }
  pose proof (think_node_name_clean _ _ _ _ _ Hthink) as Hs.
  assert (Hroute : should_call_tool s1 = n_tool).
  { unfold should_call_tool. rewrite Hs. destruct (tool_name s1);
      [contradiction Hname; reflexivity | reflexivity]. }
  rewrite run_graph_unfold, Hthink, Hroute, tool_node_result, Hnone.
  apply think_node_frame in Hthink. destruct Hthink as (Hu & Hh & _).
  rewrite (answer_node_ok ext _ t1 reply);
    cbn [user_input chat_history tool_result set_tool_result];
    rewrite ?Hu, ?Hh; try assumption.
  eexists. split; [reflexivity|]. simpl. auto.
Qed.

Lemma unknown_tool_turn_witness :
  exists final : AgentState,
    run_graph (scripted [Ok decision_foo; Ok hello])
      (set_user_input (u "帮我翻译") get_initial_state) []
    = (Ok final,
       [think_prompt (u "帮我翻译");
        answer_prompt [] (u "帮我翻译") (u "未知工具：foo")])
    /\ final_answer final = hello.
Proof.
  destruct (unknown_tool_turn (scripted [Ok decision_foo; Ok hello])
              (set_user_input (u "帮我翻译") get_initial_state)
              (set_tool_input (JDict [])
                 (set_tool_name (u "foo")
                    (set_user_input (u "帮我翻译") get_initial_state)))
              [] [think_prompt (u "帮我翻译")] hello)
    as (final & Hrun & _ & Hans & _).
  - vm_compute. reflexivity.
  - vm_compute. congruence.
  - apply tools_lookup_None; vm_compute; congruence.
  - vm_compute. reflexivity.
  - exists final. split; [exact Hrun | exact Hans].
Defined.

(** ** The driver loop, continued *)

(** X8. The exit word ends the loop: a line that is the exit word after
    stripping, and every line after it, is never handed to the graph. *)
Theorem main_loop_exit (ext : Externals) (pre post : list str) (line : str)
    (d : Driver) (t : Trace) :
  strip line = u "退出" ->
  main_loop ext (pre ++ line :: post) d t = main_loop ext pre d t.
Proof.
  intros Hexit. revert d t. induction pre as [|l pre IH]; intros d t; simpl.
  - rewrite bool_decide_eq_true_2 by exact Hexit. reflexivity.
  - case_bool_decide; [reflexivity|].
    destruct (agent_graph_invoke ext _ thread_id (checkpointer d) t)
      as [[[final|e] store'] t1]; [apply IH | reflexivity].
Qed.

Lemma main_loop_exit_witness :
  main_loop (scripted [Ok hello; Ok hello]) ([hi] ++ u " 退出 " :: [hi; hi])
    initial_driver []
  = main_loop (scripted [Ok hello; Ok hello]) [hi] initial_driver [].
Proof.
  apply (main_loop_exit (scripted [Ok hello; Ok hello]) [hi] [hi; hi]
           (u " 退出 ") initial_driver []).
  vm_compute. reflexivity.
Defined.

(** X9. The loop only ever appends: whatever state it is started in, the
    history it ends with begins with the history it started with, and so do
    the printed answers. *)
Theorem main_loop_append_only (ext : Externals) (lines : list str)
    (d d' : Driver) (t t' : Trace) :
  main_loop ext lines d t = (Ok d', t') ->
  chat_history (current_state d) `prefix_of` chat_history (current_state d')
  /\ stdout d `prefix_of` stdout d'.
Proof.
  intros H. apply main_loop_history in H. destruct H as (answers & -> & ->).
  split; apply prefix_app_r; reflexivity.
Qed.

Lemma main_loop_append_only_witness :
  match main_loop (scripted [Ok hello; Ok hello]) [hi]
          (mkDriver (set_chat_history [HumanMessage hi; AIMessage hello]
                       get_initial_state) ∅ [hello]) [] with
  | (Ok d', _) =>
      [HumanMessage hi; AIMessage hello]
        `prefix_of` chat_history (current_state d')
  | (Raise _, _) => False
  end.
Proof.
  destruct (main_loop (scripted [Ok hello; Ok hello]) [hi]
              (mkDriver (set_chat_history [HumanMessage hi; AIMessage hello]
                           get_initial_state) ∅ [hello]) [])
    as [[d'|e] t'] eqn:H.
  - exact (proj1 (main_loop_append_only _ _ _ _ _ _ H)).
  - vm_compute in H. discriminate.
Defined.

Lemma run_graph_calls (ext : Externals) (input final : AgentState)
    (t t' : Trace) :
  run_graph ext input t = (Ok final, t') ->
  length t'
  = (length t + (if truthy (strip (user_input input)) then 2 else 0))%nat.
Proof.
  destruct (truthy (strip (user_input input))) eqn:Hb.
  - apply truthy_true in Hb. intros H.
    apply run_graph_trace in H; [|exact Hb]. rewrite H, length_app.
    reflexivity.
  - apply truthy_false in Hb.
    rewrite run_graph_unfold, think_node_blank by exact Hb.
    unfold should_call_tool. cbn [tool_name set_tool_input set_tool_name].
    rewrite strip_nil. cbn [truthy].
    rewrite answer_node_blank by exact Hb. intros [= _ <-]. lia.
Qed.

(** X10. The model is called twice for every completed turn whose input is
    not blank and not at all for the others: the number of prompts sent
    grows by twice the number of non-blank lines among the completed
    turns. *)
Theorem main_loop_model_calls (ext : Externals) (lines : list str)
    (d d' : Driver) (t t' : Trace) :
  main_loop ext lines d t = (Ok d', t') ->
  exists answers : list str,
    stdout d' = stdout d ++ answers
    /\ length t'
       = (length t
          + 2 * length (filter (fun l => strip l ≠ [])
                          (take (length answers) lines)))%nat.
Proof.
  revert d t. induction lines as [|line rest IH]; intros d t; simpl.
  - intros [= <- <-]. exists []. rewrite app_nil_r. simpl. split; [reflexivity|lia].
  - case_bool_decide.
    + intros [= <- <-]. exists []. rewrite app_nil_r. simpl.
      split; [reflexivity|lia].
    + unfold agent_graph_invoke.
      destruct (run_graph ext _ t) as [[final|e] t1] eqn:Hrun; [|discriminate].
      intros Hloop. apply IH in Hloop. destruct Hloop as (answers & Hout & Hlen).
      simpl in Hout. apply run_graph_calls in Hrun. simpl in Hrun.
      exists (final_answer final :: answers). split.
      * rewrite Hout, <- app_assoc. reflexivity.
      * rewrite Hlen, Hrun. simpl. rewrite filter_cons.
        destruct (strip line) as [|c r].
        -- destruct (decide (@nil N ≠ [])) as [X|X];
             [contradiction X; reflexivity|]. simpl. lia.
        -- destruct (decide (c :: r ≠ [])) as [X|X];
             [|exfalso; apply X; discriminate]. simpl. lia.
Qed.

Lemma main_loop_model_calls_witness :
  match main_loop (scripted [Ok hello; Ok hello]) [hi; u "  "]
          initial_driver [] with
  | (Ok d', t') => length t' = 2%nat
  | (Raise _, _) => False
  end.
Proof.
  destruct (main_loop (scripted [Ok hello; Ok hello]) [hi; u "  "]
              initial_driver [])
    as [[d'|e] t'] eqn:H.
  - destruct (main_loop_model_calls _ _ _ _ _ _ H) as (answers & Hout & Hlen).
    assert (Hans : answers = [hello; clarification])
      by (vm_compute in H; injection H as <- _; simpl in Hout;
          rewrite <- Hout; reflexivity).
    rewrite Hlen, Hans. vm_compute. reflexivity.
  - vm_compute in H. discriminate.
Defined.

(** X11. The loop hands every turn a state whose tool fields and answer are
    empty: once a turn has completed, or when the loop started that way,
    the state it keeps for the next turn is cleared. *)
Theorem main_loop_keeps_cleared (ext : Externals) (lines : list str)
    (d d' : Driver) (t t' : Trace) :
  main_loop ext lines d t = (Ok d', t') ->
  cleared (current_state d) \/ stdout d' ≠ stdout d ->
  cleared (current_state d').
Proof.
  revert d t. induction lines as [|line rest IH]; intros d t; simpl.
  - intros [= <- <-] [Hc|Hc]; [exact Hc | contradiction Hc; reflexivity].
  - case_bool_decide.
    + intros [= <- <-] [Hc|Hc]; [exact Hc | contradiction Hc; reflexivity].
    + unfold agent_graph_invoke.
      destruct (run_graph ext _ t) as [[final|e] t1]; [|discriminate].
      intros Hloop _. eapply IH; [exact Hloop|]. left.
      repeat split.
Qed.

Lemma main_loop_keeps_cleared_witness :
  match main_loop (scripted [Ok decision_calc; Ok hello]) [u "1+2*3"]
          initial_driver [] with
  | (Ok d', _) => tool_result (current_state d') = []
  | (Raise _, _) => False
  end.
Proof.
  destruct (main_loop (scripted [Ok decision_calc; Ok hello]) [u "1+2*3"]
              initial_driver [])
    as [[d'|e] t'] eqn:H.
  - destruct (main_loop_keeps_cleared _ _ _ _ _ _ H) as (_ & _ & Hr & _);
      [left; repeat split | exact Hr].
  - vm_compute in H. discriminate.
Defined.

(** ** The chat loop of day1 *)

Lemma ai_contents_app (h1 h2 : list Message) :
  ai_contents (h1 ++ h2) = ai_contents h1 ++ ai_contents h2.
Proof. unfold ai_contents. rewrite filter_app, fmap_app. reflexivity. Qed.

Lemma existsb_ai_contents (h : list Message) (c : str) :
  existsb (fun msg => is_AIMessage msg && bool_decide (content msg = c)) h = true
  <-> c ∈ ai_contents h.
Proof.
  unfold ai_contents. rewrite existsb_exists, list_elem_of_fmap. split.
  - intros (m & Hin & Hm). apply andb_true_iff in Hm. destruct Hm as [Hai Hc].
    apply bool_decide_eq_true in Hc. exists m. split; [congruence|].
    apply list_elem_of_filter. split; [exact Hai | apply list_elem_of_In, Hin].
  - intros (m & -> & Hin). apply list_elem_of_filter in Hin.
    destruct Hin as [Hai Hin]. exists m. split; [apply list_elem_of_In, Hin|].
    rewrite Hai. simpl. apply bool_decide_eq_true. reflexivity.
Qed.

Lemma ai_contents_elem (h : list Message) (c : str) :
  c ∈ ai_contents h <-> AIMessage c ∈ h.
Proof.
  unfold ai_contents. rewrite list_elem_of_fmap. split.
  - intros (m & -> & Hin). apply list_elem_of_filter in Hin.
    destruct Hin as [Hai Hin]. destruct m; try discriminate. exact Hin.
  - intros Hin. exists (AIMessage c). split; [reflexivity|].
    apply list_elem_of_filter. split; [reflexivity | exact Hin].
Qed.

(** The three cases of recording one event. *)
Lemma record_reply_cases (h : list Message) (c : str) :
  (record_reply h c = h /\ (c = [] \/ AIMessage c ∈ h))
  \/ (record_reply h c = h ++ [AIMessage c] /\ c ≠ [] /\ AIMessage c ∉ h).
Proof.
  unfold record_reply. destruct (truthy c) eqn:Hc.
  - destruct (existsb _ h) eqn:Hex; simpl.
    + left. split; [reflexivity|]. right.
      apply ai_contents_elem, existsb_ai_contents, Hex.
    + right. split; [reflexivity|]. split; [apply truthy_true, Hc|].
      intros Hin. apply ai_contents_elem, existsb_ai_contents in Hin. congruence.
  - left. split; [reflexivity|]. left. apply truthy_false, Hc.
Qed.

Lemma record_reply_nodup (h : list Message) (c : str) :
  NoDup (ai_contents h) -> NoDup (ai_contents (record_reply h c)).
Proof.
  intros Hnd. destruct (record_reply_cases h c) as [[-> _]|(-> & _ & Hnin)];
    [exact Hnd|].
  rewrite ai_contents_app. apply NoDup_app. split; [exact Hnd|].
  split; [|apply NoDup_singleton].
  intros x Hx Hx'. apply list_elem_of_singleton in Hx'. subst x.
  apply Hnin, ai_contents_elem, Hx.
Qed.

(** What the events of one stream add to a history. *)
Lemma foldl_record_reply (evs : list str) (h0 : list Message) :
  exists extra : list Message,
    foldl record_reply h0 evs = h0 ++ extra
    /\ Forall (fun m => exists c, m = AIMessage c /\ c ≠ [] /\ c ∈ evs) extra
    /\ (NoDup (ai_contents h0) ->
        NoDup (ai_contents (foldl record_reply h0 evs)))
    /\ (forall c, c ∈ evs -> c ≠ [] -> AIMessage c ∈ foldl record_reply h0 evs)
    /\ (extra = [] -> forall c, c ∈ evs -> c = [] \/ AIMessage c ∈ h0).
Proof.
  revert h0. induction evs as [|c evs IH]; intros h0; simpl.
  - exists []. rewrite app_nil_r. repeat split; auto.
    + intros c Hc. inversion Hc.
    + intros _ c Hc. inversion Hc.
  - destruct (IH (record_reply h0 c)) as (extra & Heq & Hall & Hnd & Hin & Hnil).
    destruct (record_reply_cases h0 c) as [[Hr Hwhy]|(Hr & Hne & Hnin)].
    + exists extra. rewrite Hr in *. split; [exact Heq|]. split.
      { eapply Forall_impl; [exact Hall|]. intros m (c' & -> & ? & ?).
        exists c'. repeat split; auto. apply list_elem_of_further. assumption. }
      split; [exact Hnd|]. split.
      { intros c' Hc' Hne'. apply elem_of_cons in Hc'.
        destruct Hc' as [->|Hc']; [|apply Hin; assumption].
        destruct Hwhy as [->|Hwhy]; [congruence|].
        rewrite Heq. apply elem_of_app. left. exact Hwhy. }
      { intros Hex c' Hc'. apply elem_of_cons in Hc'.
        destruct Hc' as [->|Hc']; [exact Hwhy | apply Hnil; assumption]. }
    + exists (AIMessage c :: extra). rewrite Heq, Hr, <- app_assoc.
      split; [reflexivity|]. split.
      { constructor.
        - exists c. repeat split; auto. apply list_elem_of_here.
        - eapply Forall_impl; [exact Hall|]. intros m (c' & -> & ? & ?).
          exists c'. repeat split; auto. apply list_elem_of_further. assumption. }
      split.
      { intros Hnd0. rewrite app_assoc, <- Hr, <- Heq. apply Hnd.
        apply record_reply_nodup, Hnd0. }
      split.
      { intros c' Hc' Hne'. apply elem_of_cons in Hc'.
        rewrite app_assoc, <- Hr, <- Heq.
        destruct Hc' as [->|Hc']; [|apply Hin; assumption].
        rewrite Heq, Hr. apply elem_of_app. left. apply elem_of_app. right.
        apply list_elem_of_here. }
      { discriminate. }
Qed.

Lemma foldl_record_reply_noop (evs : list str) (h : list Message) :
  (forall c, c ∈ evs -> c = [] \/ AIMessage c ∈ h) ->
  foldl record_reply h evs = h.
Proof.
  induction evs as [|c evs IH]; simpl; intros Hall; [reflexivity|].
  assert (Hc : record_reply h c = h).
  { destruct (Hall c (list_elem_of_here _ _)) as [->|Hin];
      [reflexivity | apply record_reply_present, Hin]. }
  rewrite Hc. apply IH. intros c' Hc'. apply Hall, list_elem_of_further, Hc'.
Qed.

(** X12. Recording is idempotent on whole streams: when the events of a
    stream are recorded a second time on top of the result, for instance
    because the agent repeats its messages, the history does not change. *)
Theorem stream_recorded_once (evs : list str) (h : list Message) :
  foldl record_reply (foldl record_reply h evs) evs = foldl record_reply h evs.
Proof.
  apply foldl_record_reply_noop. intros c Hc.
  destruct (foldl_record_reply evs h) as (_ & _ & _ & _ & Hin & _).
  destruct c as [|x r]; [left; reflexivity|]. right. apply Hin; [exact Hc|].
  discriminate.
Qed.

(** X13. The history of the chat loop never holds two assistant messages
    with the same content: one round keeps that property, whether the
    stream fails or not, and so does the whole loop; started from the empty
    history the loop always ends with distinct assistant contents. *)
Theorem assistant_contents_unique (lower : str -> str)
    (astream : nat -> list Message -> Outcome) :
  (forall (n : nat) (h : list Message) (user_input' : str),
      NoDup (ai_contents h) ->
      NoDup (ai_contents (chat_round astream n h user_input')))
  /\ (forall (lines : list str) (n : nat) (h : list Message),
         NoDup (ai_contents h) ->
         NoDup (ai_contents (multi_round_chat lower astream lines n h).2))
  /\ (forall lines : list str,
         NoDup (ai_contents (multi_round_chat lower astream lines 0 []).2)).
Proof.
  assert (Hround : forall (n : nat) (h : list Message) (user_input' : str),
             NoDup (ai_contents h) ->
             NoDup (ai_contents (chat_round astream n h user_input'))).
  { intros n h x Hnd. unfold chat_round.
    set (h0 := h ++ [HumanMessage x]).
    destruct (foldl_record_reply (events (astream n h0)) h0)
      as (extra & Heq & _ & Hnd1 & _).
    assert (Hnd0 : NoDup (ai_contents h0)).
    { unfold h0. rewrite ai_contents_app. simpl. rewrite app_nil_r. exact Hnd. }
    specialize (Hnd1 Hnd0).
    destruct (failure (astream n h0)); [|exact Hnd1].
    destruct (foldl record_reply h0 (events (astream n h0))) as [|m l] eqn:Hf
      using rev_ind; [exact Hnd1|].
    rewrite removelast_last. rewrite ai_contents_app in Hnd1.
    apply NoDup_app in Hnd1. tauto. }
  assert (Hloop : forall (lines : list str) (n : nat) (h : list Message),
             NoDup (ai_contents h) ->
             NoDup (ai_contents (multi_round_chat lower astream lines n h).2)).
  { induction lines as [|line rest IH]; intros n h Hnd; simpl; [exact Hnd|].
    case_bool_decide; [exact Hnd|].
    destruct (truthy (strip line)); simpl; [|apply IH, Hnd].
    apply IH, Hround, Hnd. }
  split; [exact Hround|]. split; [exact Hloop|].
  intros lines. apply Hloop. constructor.
Qed.

Lemma assistant_contents_unique_witness :
  NoDup (ai_contents
           (chat_round
              (scripted_stream [mkOutcome [hi; hello; hello] None])
              0 [HumanMessage hi; AIMessage hello] hi)).
Proof.
  apply (proj1 (assistant_contents_unique ascii_lower
                  (scripted_stream [mkOutcome [hi; hello; hello] None]))).
  vm_compute. apply NoDup_singleton.
Defined.

(** X14. What the [pop] of the exception handler removes.  When the stream
    fails before any event added a reply, the round leaves the history
    exactly as it was: the user's message is taken back.  When an event had
    added a reply before the failure, the [pop] removes the newest reply
    instead, and the user's message stays in the history. *)
Theorem failed_round_history (astream : nat -> list Message -> Outcome)
    (n : nat) (h : list Message) (user_input' : str) (e : PyExn) :
  failure (astream n (h ++ [HumanMessage user_input'])) = Some e ->
  ((forall c, c ∈ events (astream n (h ++ [HumanMessage user_input'])) ->
              c = [] \/ AIMessage c ∈ h) ->
   chat_round astream n h user_input' = h)
  /\ (forall c, c ∈ events (astream n (h ++ [HumanMessage user_input'])) ->
                c ≠ [] -> AIMessage c ∉ h ->
                (h ++ [HumanMessage user_input'])
                  `prefix_of` chat_round astream n h user_input').
Proof.
  intros Hfail. unfold chat_round. rewrite Hfail.
  set (h0 := h ++ [HumanMessage user_input']).
  set (evs := events (astream n h0)).
  destruct (foldl_record_reply evs h0) as (extra & Heq & _ & _ & _ & Hnil).
  split.
  - intros Hall. rewrite foldl_record_reply_noop.
    + unfold h0. apply removelast_last.
    + intros c Hc. destruct (Hall c Hc) as [->|Hin]; [left; reflexivity|].
      right. unfold h0. apply elem_of_app. left. exact Hin.
  - intros c Hc Hne Hnin. rewrite Heq.
    destruct extra as [|m extra] using rev_ind.
    + exfalso. destruct (Hnil eq_refl c Hc) as [->|Hin]; [congruence|].
      unfold h0 in Hin. apply elem_of_app in Hin. destruct Hin as [Hin|Hin];
        [contradiction|]. apply list_elem_of_singleton in Hin. discriminate.
    + rewrite app_assoc, removelast_last. apply prefix_app_r. reflexivity.
Qed.

Lemma failed_round_history_witness :
  chat_round (scripted_stream [mkOutcome [] (Some model_down)]) 0
    [HumanMessage hi; AIMessage hello] (u "再见")
  = [HumanMessage hi; AIMessage hello]
  /\ ([HumanMessage hi; AIMessage hello] ++ [HumanMessage (u "再见")])
       `prefix_of`
       chat_round
         (scripted_stream [mkOutcome [u "再见"; u "稍等"] (Some model_down)]) 0
         [HumanMessage hi; AIMessage hello] (u "再见").
Proof.
  split.
  - apply (proj1 (failed_round_history
                    (scripted_stream [mkOutcome [] (Some model_down)]) 0
                    [HumanMessage hi; AIMessage hello] (u "再见") model_down
                    eq_refl)).
    intros c Hc. vm_compute in Hc. inversion Hc.
  - apply (proj2 (failed_round_history
                    (scripted_stream
                       [mkOutcome [u "再见"; u "稍等"] (Some model_down)]) 0
                    [HumanMessage hi; AIMessage hello] (u "再见") model_down
                    eq_refl) (u "稍等")).
    + apply list_elem_of_further, list_elem_of_here.
    + vm_compute. congruence.
    + vm_compute. intros Hin. apply elem_of_cons in Hin.
      destruct Hin as [Hin|Hin]; [discriminate|].
      apply elem_of_cons in Hin. destruct Hin as [Hin|Hin]; [discriminate|].
      inversion Hin.
Defined.

(** X15. A round whose stream does not fail extends the history by the
    user's message followed by assistant messages only, each with a
    non-empty content taken from an event; and the content of every event
    that is not empty is in the history afterwards as an assistant
    message. *)
Theorem completed_round_history (astream : nat -> list Message -> Outcome)
    (n : nat) (h : list Message) (user_input' : str) :
  failure (astream n (h ++ [HumanMessage user_input'])) = None ->
  (exists extra : list Message,
      chat_round astream n h user_input'
      = h ++ [HumanMessage user_input'] ++ extra
      /\ Forall (fun m => exists c, m = AIMessage c /\ c ≠ []
                  /\ c ∈ events (astream n (h ++ [HumanMessage user_input'])))
           extra)
  /\ (forall c, c ∈ events (astream n (h ++ [HumanMessage user_input'])) ->
                c ≠ [] -> AIMessage c ∈ chat_round astream n h user_input').
Proof.
  intros Hok. unfold chat_round. rewrite Hok.
  destruct (foldl_record_reply
              (events (astream n (h ++ [HumanMessage user_input'])))
              (h ++ [HumanMessage user_input']))
    as (extra & Heq & Hall & _ & Hin & _).
  split; [|exact Hin].
  exists extra. rewrite Heq, <- app_assoc. split; [reflexivity | exact Hall].
Qed.

Lemma completed_round_history_witness :
  AIMessage hello
    ∈ chat_round (scripted_stream [mkOutcome [hi; hello] None]) 0 [] hi.
Proof.
  apply (proj2 (completed_round_history
                  (scripted_stream [mkOutcome [hi; hello] None]) 0 [] hi
                  eq_refl) hello).
  - apply list_elem_of_further, list_elem_of_here.
  - vm_compute. congruence.
Defined.

(** X16. An exit word ends the chat loop: once a line, stripped and
    lower-cased, is one of the exit words, that line and all lines after it
    leave the history and the number of agent calls as they are. *)
Theorem multi_round_chat_exit (lower : str -> str)
    (astream : nat -> list Message -> Outcome)
    (pre post : list str) (line : str) (n : nat) (h : list Message) :
  lower (strip line) ∈ exit_words ->
  multi_round_chat lower astream (pre ++ line :: post) n h
  = multi_round_chat lower astream pre n h.
Proof.
  intros Hexit. revert n h. induction pre as [|l pre IH]; intros n h; simpl.
  - rewrite bool_decide_eq_true_2 by exact Hexit. reflexivity.
  - case_bool_decide; [reflexivity|].
    destruct (truthy (strip l)); simpl; apply IH.
Qed.

Lemma multi_round_chat_exit_witness :
  multi_round_chat ascii_lower (scripted_stream [mkOutcome [hello] None])
    ([hi] ++ u " QUIT " :: [hi]) 0 []
  = multi_round_chat ascii_lower (scripted_stream [mkOutcome [hello] None])
      [hi] 0 [].
Proof.
  apply (multi_round_chat_exit ascii_lower
           (scripted_stream [mkOutcome [hello] None]) [hi] [hi] (u " QUIT ") 0 []).
  vm_compute. apply list_elem_of_further, list_elem_of_here.
Defined.

(** ** Memory across turns *)

(** X17. The model is shown every earlier turn: after the loop has completed
    some turns from the initial state, a further turn on a line that is not
    blank ends with an answer prompt that carries the transcript of all the
    completed turns, in order, between the system message and the new
    input; the decision prompt before it carries the new input only. *)
Theorem next_turn_sees_history (ext : Externals) (lines : list str)
    (line : str) (d1 : Driver) (final : AgentState) (t t1 t2 : Trace) :
  main_loop ext lines initial_driver t = (Ok d1, t1) ->
  strip line ≠ [] ->
  run_graph ext (set_user_input line (current_state d1)) t1 = (Ok final, t2) ->
  t2 = t1 ++ [think_prompt (strip line);
              [SystemMessage answer_system_prompt]
              ++ transcript lines (stdout d1)
              ++ [HumanMessage (strip line);
                  SystemMessage
                    (u "工具结果：" ++ (if truthy (tool_result final)
                                    then tool_result final else u "无"))]].
Proof.
  intros Hloop Hne Hrun.
  apply main_loop_history in Hloop. destruct Hloop as (answers & Hout & Hh).
  simpl in Hout, Hh. subst answers.
  apply run_graph_trace in Hrun; [|exact Hne]. rewrite Hrun.
  cbn [user_input chat_history set_user_input]. rewrite Hh. reflexivity.
Qed.

Lemma next_turn_sees_history_witness :
  match main_loop (scripted [Ok hello; Ok hello; Ok hello; Ok hello]) [hi]
          initial_driver [] with
  | (Ok d1, t1) =>
      match run_graph (scripted [Ok hello; Ok hello; Ok hello; Ok hello])
              (set_user_input (u "我刚才问了什么") (current_state d1)) t1 with
      | (Ok final, t2) =>
          last t2
          = Some (answer_prompt [HumanMessage hi; AIMessage hello]
                    (u "我刚才问了什么") [])
      | (Raise _, _) => False
      end
  | (Raise _, _) => False
  end.
Proof.
  destruct (main_loop (scripted [Ok hello; Ok hello; Ok hello; Ok hello]) [hi]
              initial_driver [])
    as [[d1|e] t1] eqn:H1; [|vm_compute in H1; discriminate].
  destruct (run_graph (scripted [Ok hello; Ok hello; Ok hello; Ok hello])
              (set_user_input (u "我刚才问了什么") (current_state d1)) t1)
    as [[final|e] t2] eqn:H2.
  - assert (Hne : strip (u "我刚才问了什么") ≠ []) by (vm_compute; congruence).
    rewrite (next_turn_sees_history _ _ _ _ _ _ _ _ H1 Hne H2).
    vm_compute in H1. injection H1 as <- <-.
    vm_compute in H2. injection H2 as <- _. vm_compute. reflexivity.
  - vm_compute in H1. injection H1 as <- <-. vm_compute in H2. discriminate.
Defined.
